(** * End-to-end computer-vision workshop: the notebooks' job configurations

    The repository is a set of notebooks; every code cell builds SDK
    configuration objects from strings, numbers and dictionaries and hands
    them to the managed platform.  This development embeds those cells:
    Python values and insertion-ordered dictionaries, the SDK classes as
    records, the [for t in training_options] loops as folds that thread the
    dictionaries they fill, and the four standalone notebooks and the
    pipeline notebook as one module each. *)

From Stdlib Require Import String Ascii List ZArith QArith Bool Lia.
From Stdlib Require Import DecimalString PrimFloat.
Import ListNotations.
Open Scope string_scope.
Open Scope Z_scope.
Set Warnings "-register-all,-inexact-float".

(** ** Python values *)

Module Py.

(** Literals that occur in the notebooks.  A float literal such as [0.7] is
    kept as the decimal fraction that is written in the source. *)
Inductive value : Type :=
| Int (z : Z)
| Float (q : Q)
| Str (s : string)
| Bool (b : bool)
| Dict (items : list (string * value)).

(** A Python [dict] with string keys keeps insertion order, and the pipeline
    notebook iterates over its dictionaries to build the step list. *)
Definition dict (V : Type) : Type := list (string * V).

Fixpoint dict_get {V} (d : dict V) (k : string) : option V :=
  match d with
  | [] => None
  | (k', v) :: d' => if String.eqb k' k then Some v else dict_get d' k
  end.

(** [d[k] = v]: an existing key keeps its position, a new key goes last. *)
Fixpoint dict_set {V} (d : dict V) (k : string) (v : V) : dict V :=
  match d with
  | [] => [(k, v)]
  | (k', v') :: d' =>
      if String.eqb k' k then (k', v) :: d' else (k', v') :: dict_set d' k v
  end.

Definition dict_keys {V} (d : dict V) : list string := map fst d.
Definition dict_values {V} (d : dict V) : list V := map snd d.

(** [str.lower()] on ASCII letters. *)
Definition lower_ascii (c : ascii) : ascii :=
  let n := nat_of_ascii c in
  if (Nat.leb 65 n && Nat.leb n 90)%bool then ascii_of_nat (n + 32) else c.

Fixpoint lower (s : string) : string :=
  match s with
  | EmptyString => EmptyString
  | String c s' => String (lower_ascii c) (lower s')
  end.

(** A [for t in keys:] loop whose body may raise [KeyError] ([None]). *)
Fixpoint for_each {S} (body : S -> string -> option S) (keys : list string)
  (s : S) : option S :=
  match keys with
  | [] => Some s
  | k :: keys' =>
      match body s k with
      | Some s' => for_each body keys' s'
      | None => None
      end
  end.

(** [s.split(sep)] for a one-character separator. *)
Fixpoint split_on (sep : ascii) (s : string) : list string :=
  match s with
  | EmptyString => [EmptyString]
  | String c s' =>
      if Ascii.eqb c sep then EmptyString :: split_on sep s'
      else match split_on sep s' with
           | [] => [String c EmptyString]
           | w :: ws => String c w :: ws
           end
  end.

End Py.

(** ** The SDK classes the notebooks instantiate *)

Module SDK.
Import Py.
Local Open Scope list_scope.

(** [ParameterInteger(name, default_value)] and [ParameterString(...)]. *)
Inductive PipelineParameter : Type :=
| ParameterInteger (name : string) (default_value : Z)
| ParameterString (name : string) (default_value : string).

Definition parameter_name (p : PipelineParameter) : string :=
  match p with
  | ParameterInteger n _ => n
  | ParameterString n _ => n
  end.

(** Properties of a step that are only known when the pipeline runs. *)
Inductive StepProperty : Type :=
| ProcessingOutputS3Uri (step_name output_name : string)
    (* step.properties.ProcessingOutputConfig.Outputs[name].S3Output.S3Uri *)
| S3ModelArtifacts (step_name : string).
    (* step.properties.ModelArtifacts.S3ModelArtifacts *)

Definition property_step (r : StepProperty) : string :=
  match r with
  | ProcessingOutputS3Uri s _ => s
  | S3ModelArtifacts s => s
  end.

(** A keyword argument: a plain Python value, a pipeline parameter, or a
    property of another step. *)
Inductive arg (A : Type) : Type :=
| Const (a : A)
| Param (p : PipelineParameter)
| Ref (r : StepProperty).
Arguments Const {A} a.
Arguments Param {A} p.
Arguments Ref {A} r.

Definition arg_steps {A} (a : arg A) : list string :=
  match a with
  | Ref r => [property_step r]
  | _ => []
  end.

Definition arg_params {A} (a : arg A) : list PipelineParameter :=
  match a with
  | Param p => [p]
  | _ => []
  end.

Record CacheConfig : Type := {
  enable_caching : bool;
  expire_after : string
}.

Record ProcessingInput : Type := {
  input_source : arg string;
  input_destination : string
}.

Record ProcessingOutput : Type := {
  output_name : option string;
  output_source : string;
  output_destination : option string
}.

Inductive Session : Type := PipelineSession.

(** [SKLearnProcessor] and [ScriptProcessor]; [command], [image_uri] and
    [sagemaker_session] belong to the script processor only. *)
Record Processor : Type := {
  proc_base_job_name : string;
  proc_framework_version : option string;
  proc_command : option (list string);
  proc_image_uri : option string;
  proc_role : string;
  proc_instance_type : arg string;
  proc_instance_count : arg Z;
  proc_sagemaker_session : option Session
}.

(** What [processor.run(...)] and [ProcessingStep(...)] both describe. *)
Record ProcessingJob : Type := {
  job_processor : Processor;
  job_code : string;
  job_arguments : list (arg string);
  job_inputs : list ProcessingInput;
  job_outputs : list ProcessingOutput
}.

Record TrainingInput : Type := {
  s3_data : arg string;
  input_distribution : string
}.

(** The [TensorFlow] estimator; a keyword that a call leaves out is [None]. *)
Record TensorFlow : Type := {
  entry_point : string;
  source_dir : string;
  output_path : option string;
  instance_type : arg string;
  instance_count : arg Z;
  distribution : option value;
  hyperparameters : dict value;
  metric_definitions : list (dict string);
  role : string;
  use_spot_instances : option bool;
  max_run : option Z;
  max_wait : option Z;
  checkpoint_s3_uri : option string;
  framework_version : string;
  py_version : string;
  base_job_name : string;
  script_mode : bool;
  tags : option (list (dict string))
}.

Record PropertyFile : Type := {
  pf_name : string;
  pf_output_name : string;
  pf_path : string
}.

Record JsonGet : Type := {
  jg_step_name : string;
  jg_property_file : PropertyFile;
  jg_json_path : string
}.

Inductive Condition : Type :=
| ConditionGreaterThanOrEqualTo (left : JsonGet) (right : float).

Record MetricsSource : Type := {
  s3_uri : arg string;
  content_type : string
}.

Record ModelMetrics : Type := {
  model_statistics : MetricsSource
}.

Inductive Step : Type :=
| ProcessingStep (name : string) (processor : Processor) (code : string)
    (job_arguments : list (arg string)) (inputs : list ProcessingInput)
    (outputs : list ProcessingOutput) (property_files : list PropertyFile)
    (cache_config : option CacheConfig)
| TrainingStep (name : string) (estimator : TensorFlow)
    (inputs : dict TrainingInput) (cache_config : option CacheConfig)
| RegisterModel (name : string) (estimator : TensorFlow)
    (model_data : arg string)
    (content_types response_types : list string)
    (inference_instances transform_instances : list string)
    (model_package_group_name : string) (model_metrics : ModelMetrics)
| ConditionStep (name : string) (conditions : list Condition)
    (if_steps else_steps : list Step).

Record Pipeline : Type := {
  pipeline_name : string;
  pipeline_parameters : list PipelineParameter;
  pipeline_steps : list Step
}.

Definition step_name (s : Step) : string :=
  match s with
  | ProcessingStep n _ _ _ _ _ _ _ => n
  | TrainingStep n _ _ _ => n
  | RegisterModel n _ _ _ _ _ _ _ _ => n
  | ConditionStep n _ _ _ => n
  end.

(** The [cache_config] keyword of a step; condition and registration steps
    have no such keyword. *)
Definition step_cache_config (s : Step) : option CacheConfig :=
  match s with
  | ProcessingStep _ _ _ _ _ _ _ c => c
  | TrainingStep _ _ _ c => c
  | RegisterModel _ _ _ _ _ _ _ _ _ => None
  | ConditionStep _ _ _ _ => None
  end.

Definition step_estimator (s : Step) : option TensorFlow :=
  match s with
  | TrainingStep _ e _ _ => Some e
  | RegisterModel _ e _ _ _ _ _ _ _ => Some e
  | _ => None
  end.

Definition step_job (s : Step) : option ProcessingJob :=
  match s with
  | ProcessingStep _ p c a i o _ _ =>
      Some {| job_processor := p; job_code := c; job_arguments := a;
              job_inputs := i; job_outputs := o |}
  | _ => None
  end.

Definition is_training_step (s : Step) : bool :=
  match s with TrainingStep _ _ _ _ => true | _ => false end.

Definition is_condition_step (s : Step) : bool :=
  match s with ConditionStep _ _ _ _ => true | _ => false end.

(** The steps whose properties a step refers to: the service runs a step
    only after every step in this list has completed. *)
Definition depends_on (s : Step) : list string :=
  match s with
  | ProcessingStep _ p _ args ins _ _ _ =>
      arg_steps (proc_instance_type p) ++ arg_steps (proc_instance_count p)
      ++ flat_map arg_steps args
      ++ flat_map (fun i => arg_steps (input_source i)) ins
  | TrainingStep _ e ins _ =>
      arg_steps (instance_type e) ++ arg_steps (instance_count e)
      ++ flat_map (fun kv => arg_steps (s3_data (snd kv))) ins
  | RegisterModel _ e md _ _ _ _ _ mm =>
      arg_steps md ++ arg_steps (s3_uri (model_statistics mm))
  | ConditionStep _ conds _ _ =>
      map (fun c => match c with
                    | ConditionGreaterThanOrEqualTo l _ => jg_step_name l
                    end) conds
  end.

(** The pipeline parameters a step refers to. *)
Definition estimator_params (e : TensorFlow) : list PipelineParameter :=
  arg_params (instance_type e) ++ arg_params (instance_count e).

Definition processor_params (p : Processor) : list PipelineParameter :=
  arg_params (proc_instance_type p) ++ arg_params (proc_instance_count p).

Fixpoint step_params (s : Step) : list PipelineParameter :=
  match s with
  | ProcessingStep _ p _ args ins _ _ _ =>
      processor_params p ++ flat_map arg_params args
      ++ flat_map (fun i => arg_params (input_source i)) ins
  | TrainingStep _ e ins _ =>
      estimator_params e
      ++ flat_map (fun kv => arg_params (s3_data (snd kv))) ins
  | RegisterModel _ e md _ _ _ _ _ mm =>
      estimator_params e ++ arg_params md
      ++ arg_params (s3_uri (model_statistics mm))
  | ConditionStep _ _ ifs elses =>
      (fix go (l : list Step) : list PipelineParameter :=
         match l with
         | [] => []
         | x :: l' => step_params x ++ go l'
         end) ifs
      ++
      (fix go (l : list Step) : list PipelineParameter :=
         match l with
         | [] => []
         | x :: l' => step_params x ++ go l'
         end) elses
  end.

(** The constant sources a job reads and the destinations it writes. *)
Definition job_reads (j : ProcessingJob) : list string :=
  flat_map (fun i => match input_source i with
                     | Const s => [s]
                     | _ => []
                     end) (job_inputs j).

Definition job_writes (j : ProcessingJob) : list string :=
  flat_map (fun o => match output_destination o with
                     | Some d => [d]
                     | None => []
                     end) (job_outputs j).

(** *** Hyperparameter tuning *)

Inductive ParameterRange : Type :=
| ContinuousParameter (min_value max_value : Q)
| CategoricalParameter (values : list value)
| IntegerParameter (min_value max_value : Z).

Record HyperparameterTuner : Type := {
  tuner_estimator : TensorFlow;
  objective_metric_name : string;
  hyperparameter_ranges : dict ParameterRange;
  tuner_metric_definitions : list (dict string);
  objective_type : string;
  max_jobs : Z;
  max_parallel_jobs : Z;
  base_tuning_job_name : string
}.

(** *** Deployment *)

Record TensorFlowModel : Type := {
  model_data : string;
  model_role : string;
  model_framework_version : string
}.

Record ServerlessInferenceConfig : Type := {
  memory_size_in_mb : Z;
  max_concurrency : Z
}.

(** The keywords of one [model.deploy(...)] call. *)
Record DeployCall : Type := {
  serverless_inference_config : option ServerlessInferenceConfig;
  initial_instance_count : option Z;
  deploy_instance_type : option string
}.

Record Predictor : Type := {
  endpoint_name : string
}.

(** *** The [aws s3 cp] shell command *)

Record S3Copy : Type := {
  cp_recursive : bool;
  cp_source : string;
  cp_destination : string
}.

End SDK.

(** ** The pipeline notebook *)

Module PipelineNotebook.
Import Py SDK.

Local Notation "x <- e ;; k" :=
  (match e with Some x => k | None => None end)
  (at level 61, e at next level, right associativity).

Section Cells.

(** What the session, the execution role and [uuid.uuid4()] return. *)
Variables (bucket role account region uuid4 : string).

(** The text of
    [step.arguments["ProcessingOutputConfig"]["Outputs"][i]["S3Output"]["S3Uri"]]
    when a cell reads it: the SDK computes the arguments of a step on the
    spot, and [str.format] freezes what it finds into a plain string. *)
Variable arguments_s3_uri : Step -> nat -> string.

Definition prefix : string := "cv-sagemaker-immersionday".

Definition model_package_group_name : string := prefix ++ "-model-group".
Definition pipeline_name : string := prefix ++ "-pipeline".

Definition s3_raw_data : string :=
  "s3://" ++ bucket ++ "/" ++ prefix ++ "/full/data".

Definition container_name : string := "sagemaker-tf-container".
Definition container_version : string := "2.0".
Definition image_uri : string :=
  account ++ ".dkr.ecr." ++ region ++ ".amazonaws.com/"
  ++ container_name ++ ":" ++ container_version.

(** *** Pipeline input parameters *)

Definition processing_instance_count : PipelineParameter :=
  ParameterInteger "ProcessingInstanceCount" 1.
Definition input_data : PipelineParameter :=
  ParameterString "InputDataUrl" s3_raw_data.
Definition input_annotation : PipelineParameter :=
  ParameterString "AnnotationFileName" "classes.txt".
Definition class_selection : PipelineParameter :=
  ParameterString "ClassSelection" "13, 17, 35, 36, 47, 68, 73, 87".

Definition processing_instance_type : string := "ml.m5.xlarge".
Definition training_instance_count : Z := 1.
Definition training_instance_type : string := "ml.c5.4xlarge".

(** *** Cache configuration *)

Definition cache_config : CacheConfig :=
  {| enable_caching := true; expire_after := "30d" |}.

(** *** Preprocess data step *)

Definition sklearn_processor : Processor :=
  {| proc_base_job_name := prefix ++ "-preprocess";
     proc_framework_version := Some "0.20.0";
     proc_command := None;
     proc_image_uri := None;
     proc_role := role;
     proc_instance_type := Const processing_instance_type;
     proc_instance_count := Param processing_instance_count;
     proc_sagemaker_session := None |}.

Definition output_s3_uri : string :=
  "s3://" ++ bucket ++ "/" ++ prefix ++ "/outputs/pipelines/" ++ uuid4.

Definition step_process : Step :=
  ProcessingStep
    "BirdClassificationPreProcess"                       (* name *)
    sklearn_processor                                    (* processor *)
    "preprocess.py"                                      (* code *)
    [Const "--classes"; Param class_selection;
     Const "--input-data"; Param input_annotation]       (* job_arguments *)
    [{| input_source := Param input_data;
        input_destination := "/opt/ml/processing/input" |}]
    [{| output_name := Some "train_data";
        output_source := "/opt/ml/processing/output/train";
        output_destination := Some (output_s3_uri ++ "/train") |};
     {| output_name := Some "val_data";
        output_source := "/opt/ml/processing/output/validation";
        output_destination := Some (output_s3_uri ++ "/validation") |};
     {| output_name := Some "test_data";
        output_source := "/opt/ml/processing/output/test";
        output_destination := Some (output_s3_uri ++ "/test") |};
     {| output_name := Some "manifest";
        output_source := "/opt/ml/processing/output/manifest";
        output_destination := Some (output_s3_uri ++ "/manifest") |}]
    []                                                   (* property_files *)
    (Some cache_config).                                 (* cache_config *)

(** *** Training step *)

Definition TF_FRAMEWORK_VERSION : string := "2.4.1".

Definition hyperparameters : dict value :=
  [("initial_epochs", Int 5);
   ("batch_size", Int 8);
   ("fine_tuning_epochs", Int 20);
   ("dropout", Float (4 # 10));
   ("data_dir", Str "/opt/ml/input/data")].

Definition metric_definitions : list (dict string) :=
  [[("Name", "loss"); ("Regex", "loss: ([0-9\.]+)")];
   [("Name", "acc"); ("Regex", "accuracy: ([0-9\.]+)")];
   [("Name", "val_loss"); ("Regex", "val_loss: ([0-9\.]+)")];
   [("Name", "val_acc"); ("Regex", "val_accuracy: ([0-9\.]+)")]].

Definition distribution_and_mode : value * string :=
  if 1 <? training_instance_count then
    (Dict [("parameter_server", Dict [("enabled", Bool true)])],
     "ShardedByS3Key")
  else
    (Dict [("parameter_server", Dict [("enabled", Bool false)])],
     "FullyReplicated").

Definition distribution : value := fst distribution_and_mode.
Definition DISTRIBUTION_MODE : string := snd distribution_and_mode.

Definition train_in : TrainingInput :=
  {| s3_data :=
       Ref (ProcessingOutputS3Uri (step_name step_process) "train_data");
     input_distribution := DISTRIBUTION_MODE |}.
Definition test_in : TrainingInput :=
  {| s3_data :=
       Ref (ProcessingOutputS3Uri (step_name step_process) "test_data");
     input_distribution := DISTRIBUTION_MODE |}.
Definition val_in : TrainingInput :=
  {| s3_data :=
       Ref (ProcessingOutputS3Uri (step_name step_process) "val_data");
     input_distribution := DISTRIBUTION_MODE |}.

Definition inputs : dict TrainingInput :=
  [("train", train_in); ("test", test_in); ("validation", val_in)].

Definition training_options : list string := ["Spot"; "OnDemand"].

(** The estimator that the loop body builds for training type [t]. *)
Definition make_estimator (t : string) : TensorFlow :=
  let tags := dict_set (dict_set [] "Key" "TrainingType") "Value" t in
  let model_path := output_s3_uri ++ "/models" in
  let checkpoint_s3_uri := output_s3_uri ++ "/outputcheckpoints" in
  if String.eqb (lower t) "spot" then
    {| entry_point := "train-mobilenet.py";
       source_dir := "code";
       output_path := Some model_path;
       instance_type := Const training_instance_type;
       instance_count := Const training_instance_count;
       SDK.distribution := Some distribution;
       SDK.hyperparameters := hyperparameters;
       SDK.metric_definitions := metric_definitions;
       SDK.role := role;
       use_spot_instances := Some true;
       max_run := Some (60 * 60 * 10);
       max_wait := Some (60 * 60 * 12);
       SDK.checkpoint_s3_uri := Some checkpoint_s3_uri;
       framework_version := TF_FRAMEWORK_VERSION;
       py_version := "py37";
       base_job_name := prefix;
       script_mode := true;
       SDK.tags := Some [tags] |}
  else
    {| entry_point := "train-mobilenet.py";
       source_dir := "code";
       output_path := Some model_path;
       instance_type := Const training_instance_type;
       instance_count := Const training_instance_count;
       SDK.distribution := Some distribution;
       SDK.hyperparameters := hyperparameters;
       SDK.metric_definitions := metric_definitions;
       SDK.role := role;
       use_spot_instances := None;
       max_run := None;
       max_wait := None;
       SDK.checkpoint_s3_uri := None;
       framework_version := TF_FRAMEWORK_VERSION;
       py_version := "py37";
       base_job_name := prefix;
       script_mode := true;
       SDK.tags := Some [tags] |}.

(** The three dictionaries the training loop fills. *)
Record TrainingCell : Type := {
  training_steps : dict Step;
  training_estimators : dict TensorFlow;
  models : dict (arg string)
}.

Definition training_body (c : TrainingCell) (t : string)
  : option TrainingCell :=
  let estimator := make_estimator t in
  let step_train :=
    TrainingStep ("BirdClassification" ++ t ++ "Train")
      estimator inputs (Some cache_config) in
  Some {| training_steps := dict_set (training_steps c) t step_train;
          training_estimators := dict_set (training_estimators c) t estimator;
          models :=
            dict_set (models c) t
              (Ref (S3ModelArtifacts (step_name step_train))) |}.

Definition training_cell : option TrainingCell :=
  for_each training_body training_options
    {| training_steps := []; training_estimators := []; models := [] |}.

(** *** Model evaluation step *)

Record EvalCell : Type := {
  eval_steps : dict Step;
  eval_reports : dict PropertyFile
}.

Definition eval_body (tr : TrainingCell) (c : EvalCell) (t : string)
  : option EvalCell :=
  let eval_processor :=
    {| proc_base_job_name := prefix ++ "-evaluation";
       proc_framework_version := None;
       proc_command := Some ["python3"];
       proc_image_uri := Some image_uri;
       proc_role := role;
       proc_instance_type := Const processing_instance_type;
       proc_instance_count := Param processing_instance_count;
       proc_sagemaker_session := Some PipelineSession |} in
  let evaluation_report :=
    {| pf_name := "Evaluation" ++ t ++ "Report";
       pf_output_name := "evaluation";
       pf_path := "evaluation.json" |} in
  model <- dict_get (models tr) t ;;
  let step_eval :=
    ProcessingStep
      ("BirdClassification" ++ t ++ "Eval")              (* name *)
      eval_processor                                     (* processor *)
      "evaluation.py"                                    (* code *)
      []                                                 (* no job_arguments *)
      [{| input_source :=
            Ref (ProcessingOutputS3Uri (step_name step_process) "test_data");
          input_destination := "/opt/ml/processing/input/test" |};
       {| input_source :=
            Ref (ProcessingOutputS3Uri (step_name step_process) "manifest");
          input_destination := "/opt/ml/processing/input/manifest" |};
       {| input_source := model;
          input_destination := "/opt/ml/processing/model" |}]
      [{| output_name := Some "evaluation";
          output_source := "/opt/ml/processing/evaluation";
          output_destination := None |}]
      [evaluation_report]                                (* property_files *)
      (Some cache_config) in
  Some {| eval_steps := dict_set (eval_steps c) t step_eval;
          eval_reports := dict_set (eval_reports c) t evaluation_report |}.

Definition eval_cell : option EvalCell :=
  tr <- training_cell ;;
  for_each (eval_body tr) training_options
    {| eval_steps := []; eval_reports := [] |}.

(** *** Register model step *)

Definition register_body (tr : TrainingCell) (ev : EvalCell)
  (model_register_steps : dict Step) (t : string) : option (dict Step) :=
  step_eval <- dict_get (eval_steps ev) t ;;
  let model_metrics :=
    {| model_statistics :=
         {| s3_uri :=
              Const (arguments_s3_uri step_eval 0 ++ "/evaluation.json");
            content_type := "application/json" |} |} in
  estimator <- dict_get (training_estimators tr) t ;;
  model <- dict_get (models tr) t ;;
  let step_register :=
    RegisterModel
      ("Register" ++ t ++ "Model")                       (* name *)
      estimator                                          (* estimator *)
      model                                              (* model_data *)
      ["application/x-image"]                            (* content_types *)
      ["application/json"]                               (* response_types *)
      ["ml.t2.medium"; "ml.m5.large"]                    (* inference_instances *)
      ["ml.m5.large"]                                    (* transform_instances *)
      model_package_group_name
      model_metrics in
  Some (dict_set model_register_steps t step_register).

Definition register_cell : option (dict Step) :=
  tr <- training_cell ;;
  ev <- eval_cell ;;
  for_each (register_body tr ev) training_options [].

(** *** Accuracy condition step *)

Definition condition_body (ev : EvalCell) (model_register_steps : dict Step)
  (condition_steps : dict Step) (t : string) : option (dict Step) :=
  step_eval <- dict_get (eval_steps ev) t ;;
  report <- dict_get (eval_reports ev) t ;;
  let cond_gte :=
    ConditionGreaterThanOrEqualTo
      {| jg_step_name := step_name step_eval;
         jg_property_file := report;
         jg_json_path := "multiclass_classification_metrics.accuracy.value" |}
      0.7%float in
  step_register <- dict_get model_register_steps t ;;
  let step_cond :=
    ConditionStep
      ("BirdClassification" ++ t ++ "Condition")         (* name *)
      [cond_gte]                                         (* conditions *)
      [step_register]                                    (* if_steps *)
      [] in                                              (* else_steps *)
  Some (dict_set condition_steps t step_cond).

Definition condition_cell : option (dict Step) :=
  ev <- eval_cell ;;
  regs <- register_cell ;;
  for_each (condition_body ev regs) training_options [].

(** *** Pipeline creation *)

(** [for k in d: steps.append(d[k])]. *)
Definition append_all (d : dict Step) (steps : list Step)
  : option (list Step) :=
  for_each (fun acc k => v <- dict_get d k ;; Some (acc ++ [v])%list)
    (dict_keys d) steps.

Definition steps : option (list Step) :=
  tr <- training_cell ;;
  ev <- eval_cell ;;
  conds <- condition_cell ;;
  s1 <- append_all (training_steps tr) [step_process] ;;
  s2 <- append_all (eval_steps ev) s1 ;;
  append_all conds s2.

Definition pipeline : option Pipeline :=
  steps <- steps ;;
  Some {| SDK.pipeline_name := pipeline_name;
          pipeline_parameters :=
            [processing_instance_count; input_data;
             input_annotation; class_selection];
          pipeline_steps := steps |}.

End Cells.

End PipelineNotebook.

(** ** What the orchestration service does with a pipeline definition *)

Module Service.
Import Py SDK.
Local Open Scope list_scope.

Local Notation "x <- e ;; k" :=
  (match e with Some x => k | None => None end)
  (at level 61, e at next level, right associativity).

(** A JSON document such as the [evaluation.json] report; a number is the
    binary64 value its text is read as. *)
Inductive json : Type :=
| JNumber (x : float)
| JString (s : string)
| JObject (members : list (string * json)).

Fixpoint json_lookup (path : list string) (j : json) : option json :=
  match path with
  | [] => Some j
  | k :: path' =>
      match j with
      | JObject members => j' <- dict_get members k ;; json_lookup path' j'
      | _ => None
      end
  end.

(** The files the steps of one execution have written: step name, output
    channel and file name give the document. *)
Definition outputs : Type := string -> string -> string -> option json.

(** [JsonGet]: follow the dotted path in the step's property file. *)
Definition json_get (o : outputs) (g : JsonGet) : option json :=
  doc <- o (jg_step_name g) (pf_output_name (jg_property_file g))
           (pf_path (jg_property_file g)) ;;
  json_lookup (split_on "." (jg_json_path g)) doc.

Definition holds (o : outputs) (c : Condition) : option bool :=
  match c with
  | ConditionGreaterThanOrEqualTo l r =>
      match json_get o l with
      | Some (JNumber a) => Some (PrimFloat.leb r a)
      | _ => None
      end
  end.

Fixpoint all_hold (o : outputs) (cs : list Condition) : option bool :=
  match cs with
  | [] => Some true
  | c :: cs' =>
      b <- holds o c ;;
      bs <- all_hold o cs' ;;
      Some (b && bs)%bool
  end.

(** The steps a step launches in turn: a condition step launches its
    [if_steps] when all conditions hold and its [else_steps] otherwise; it
    launches nothing when a condition cannot be evaluated. *)
Definition branch (o : outputs) (s : Step) : list Step :=
  match s with
  | ConditionStep _ cs ifs elses =>
      match all_hold o cs with
      | Some true => ifs
      | Some false => elses
      | None => []
      end
  | _ => []
  end.

(** Names of the steps an execution runs: the steps of the pipeline and the
    steps of the branches taken. *)
Definition launched (o : outputs) (p : Pipeline) : list string :=
  flat_map (fun s => step_name s :: map step_name (branch o s))
    (pipeline_steps p).

(** The steps an execution runs: the steps of the pipeline and the steps of
    the branches taken. *)
Definition launched_steps (o : outputs) (p : Pipeline) : list Step :=
  flat_map (fun s => s :: branch o s) (pipeline_steps p).

(** Steps that occur in a branch of a condition step of the pipeline. *)
Definition branch_steps (s : Step) : list Step * list Step :=
  match s with
  | ConditionStep _ _ ifs elses => (ifs, elses)
  | _ => ([], [])
  end.

(** *** Execution orders *)

(** [a] occurs in [order] and [b] occurs later. *)
Fixpoint precedes (a b : string) (order : list string) : bool :=
  match order with
  | [] => false
  | x :: rest =>
      if String.eqb x a then existsb (String.eqb b) rest
      else precedes a b rest
  end.

Fixpoint distinct (l : list string) : bool :=
  match l with
  | [] => true
  | x :: rest => negb (existsb (String.eqb x) rest) && distinct rest
  end.

(** An order in which the service may complete the steps of [p]: every step
    once, and each step after the steps whose properties it refers to. *)
Definition execution_order (p : Pipeline) (order : list string) : bool :=
  distinct order
  && forallb (fun s =>
       existsb (String.eqb (step_name s)) order
       && forallb (fun d => precedes d (step_name s) order) (depends_on s))
     (pipeline_steps p).

(** *** Parameters of an execution *)

(** [pipeline.start(parameters=...)]: an override replaces the default of
    the parameter with that name; the service refuses an empty string. *)
Definition resolve_string (overrides : dict value) (a : arg string)
  : option string :=
  match a with
  | Const s => Some s
  | Param (ParameterString n d) =>
      match dict_get overrides n with
      | Some (Str EmptyString) => None
      | Some (Str s) => Some s
      | Some _ => None
      | None => Some d
      end
  | _ => None
  end.

Definition resolve_int (overrides : dict value) (a : arg Z) : option Z :=
  match a with
  | Const z => Some z
  | Param (ParameterInteger n d) =>
      match dict_get overrides n with
      | Some (Int z) => Some z
      | Some _ => None
      | None => Some d
      end
  | _ => None
  end.

End Service.

(** ** Module 1: the preprocessing notebook *)

Module PreprocessingNotebook.
Import Py SDK.

Section Cells.
Variables (bucket role : string).

Definition prefix : string := "cv-sagemaker-immersionday".

Definition s3_raw_data : string :=
  "s3://" ++ bucket ++ "/" ++ prefix ++ "/full/data".

(** [!aws s3 cp --recursive ./CUB_200_2011 $s3_raw_data --quiet] *)
Definition upload : S3Copy :=
  {| cp_recursive := true;
     cp_source := "./CUB_200_2011";
     cp_destination := s3_raw_data |}.

Definition output_prefix : string := prefix ++ "/outputs".
Definition output_s3_uri : string := "s3://" ++ bucket ++ "/" ++ output_prefix.

Definition class_selection : string := "13, 17, 35, 36, 47, 68, 73, 87".
Definition input_annotation : string := "classes.txt".
Definition processing_instance_type : string := "ml.m5.xlarge".
Definition processing_instance_count : Z := 1.

Definition sklearn_processor : Processor :=
  {| proc_base_job_name := prefix ++ "-preprocess";
     proc_framework_version := Some "0.20.0";
     proc_command := None;
     proc_image_uri := None;
     proc_role := role;
     proc_instance_type := Const processing_instance_type;
     proc_instance_count := Const processing_instance_count;
     proc_sagemaker_session := None |}.

(** [sklearn_processor.run(...)] *)
Definition run : ProcessingJob :=
  {| job_processor := sklearn_processor;
     job_code := "preprocessing.py";
     job_arguments := [Const "--classes"; Const class_selection;
                       Const "--input-data"; Const input_annotation];
     job_inputs :=
       [{| input_source := Const s3_raw_data;
           input_destination := "/opt/ml/processing/input" |}];
     job_outputs :=
       [{| output_name := None;
           output_source := "/opt/ml/processing/output/train";
           output_destination := Some (output_s3_uri ++ "/train") |};
        {| output_name := None;
           output_source := "/opt/ml/processing/output/valid";
           output_destination := Some (output_s3_uri ++ "/valid") |};
        {| output_name := None;
           output_source := "/opt/ml/processing/output/test";
           output_destination := Some (output_s3_uri ++ "/test") |};
        {| output_name := None;
           output_source := "/opt/ml/processing/output/manifest";
           output_destination := Some (output_s3_uri ++ "/manifest") |}] |}.

End Cells.

End PreprocessingNotebook.

(** ** Module 2: the training notebook *)

Module TrainingNotebook.
Import Py SDK.

Section Cells.
Variables (bucket role : string).

(** [tuner.best_estimator().latest_training_job.describe()
     ['ModelArtifacts']['S3ModelArtifacts']], known once the tuning job has
    run. *)
Variable best_model_uri : string.

Definition prefix : string := "cv-sagemaker-immersionday".

Definition processed_data_s3_uri : string :=
  "s3://" ++ bucket ++ "/" ++ prefix ++ "/outputs".
Definition model_output_path : string :=
  "s3://" ++ bucket ++ "/" ++ prefix ++ "/outputs/model".

Definition metric_definitions : list (dict string) :=
  [[("Name", "loss"); ("Regex", "loss: ([0-9\.]+)")];
   [("Name", "acc"); ("Regex", "accuracy: ([0-9\.]+)")];
   [("Name", "val_loss"); ("Regex", "val_loss: ([0-9\.]+)")];
   [("Name", "val_acc"); ("Regex", "val_accuracy: ([0-9\.]+)")]].

Definition TF_FRAMEWORK_VERSION : string := "2.4.1".
Definition DISTRIBUTION : value :=
  Dict [("parameter_server", Dict [("enabled", Bool false)])].
Definition DISTRIBUTION_MODE : string := "FullyReplicated".

Definition training_instance_type : string := "ml.c5.4xlarge".
Definition training_instance_count : Z := 1.
Definition shared_hyperparameters : dict value :=
  [("initial_epochs", Int 5);
   ("fine_tuning_epochs", Int 20);
   ("data_dir", Str "/opt/ml/input/data")].

Definition estimator : TensorFlow :=
  {| entry_point := "train-mobilenet.py";
     source_dir := "code";
     output_path := None;
     instance_type := Const training_instance_type;
     instance_count := Const training_instance_count;
     distribution := None;
     hyperparameters := shared_hyperparameters;
     SDK.metric_definitions := metric_definitions;
     SDK.role := role;
     use_spot_instances := None;
     max_run := None;
     max_wait := None;
     checkpoint_s3_uri := None;
     framework_version := TF_FRAMEWORK_VERSION;
     py_version := "py37";
     base_job_name := prefix;
     script_mode := true;
     tags := None |}.

Definition hyperparameter_ranges : dict ParameterRange :=
  [("dropout", ContinuousParameter (5 # 10) (8 # 10));
   ("batch-size",
    CategoricalParameter [Int 8; Int 16; Int 32; Int 64; Int 128; Int 256])].

Definition objective_metric_name : string := "val_acc".

Definition train_in : TrainingInput :=
  {| s3_data := Const (processed_data_s3_uri ++ "/train");
     input_distribution := DISTRIBUTION_MODE |}.
Definition val_in : TrainingInput :=
  {| s3_data := Const (processed_data_s3_uri ++ "/valid");
     input_distribution := DISTRIBUTION_MODE |}.

Definition inputs : dict TrainingInput :=
  [("train", train_in); ("validation", val_in)].

Definition tuner : HyperparameterTuner :=
  {| tuner_estimator := estimator;
     SDK.objective_metric_name := objective_metric_name;
     SDK.hyperparameter_ranges := hyperparameter_ranges;
     tuner_metric_definitions := metric_definitions;
     objective_type := "Maximize";
     max_jobs := 2;
     max_parallel_jobs := 2;
     base_tuning_job_name := "cv-hpo" |}.

(** [!aws s3 cp {best_model_uri} {model_output_path}/model.tar.gz] *)
Definition copy_best_model : S3Copy :=
  {| cp_recursive := false;
     cp_source := best_model_uri;
     cp_destination := model_output_path ++ "/model.tar.gz" |}.

End Cells.

End TrainingNotebook.

(** ** Module 3: the model-evaluation notebook *)

Module EvaluationNotebook.
Import Py SDK.

Section Cells.
Variables (bucket role account region : string).

Definition prefix : string := "cv-sagemaker-immersionday".

Definition s3_images : string :=
  "s3://" ++ bucket ++ "/" ++ prefix ++ "/outputs/test/".
Definition s3_manifest : string :=
  "s3://" ++ bucket ++ "/" ++ prefix ++ "/outputs/manifest".
Definition s3_model : string :=
  "s3://" ++ bucket ++ "/" ++ prefix ++ "/outputs/model/".

Definition container_name : string := "sagemaker-tf-container".
Definition container_version : string := "2.0".
Definition ecr_image : string :=
  account ++ ".dkr.ecr." ++ region ++ ".amazonaws.com/"
  ++ container_name ++ ":" ++ container_version.

Definition image_uri : string := ecr_image.

Definition s3_evaluation_output : string :=
  "s3://" ++ bucket ++ "/" ++ prefix ++ "/outputs/evaluation".

Definition script_processor : Processor :=
  {| proc_base_job_name := prefix;
     proc_framework_version := None;
     proc_command := Some ["python3"];
     proc_image_uri := Some image_uri;
     proc_role := role;
     proc_instance_type := Const "ml.m5.xlarge";
     proc_instance_count := Const 1;
     proc_sagemaker_session := None |}.

(** [script_processor.run(...)] *)
Definition run : ProcessingJob :=
  {| job_processor := script_processor;
     job_code := "evaluation.py";
     job_arguments := [Const "--model-file"; Const "model.tar.gz"];
     job_inputs :=
       [{| input_source := Const s3_images;
           input_destination := "/opt/ml/processing/input/test" |};
        {| input_source := Const s3_manifest;
           input_destination := "/opt/ml/processing/input/manifest" |};
        {| input_source := Const s3_model;
           input_destination := "/opt/ml/processing/model" |}];
     job_outputs :=
       [{| output_name := Some "evaluation";
           output_source := "/opt/ml/processing/evaluation";
           output_destination := Some s3_evaluation_output |}] |}.

(** The review cells read the job's own report and confusion matrix. *)
Definition eval_matrix_key : string :=
  prefix ++ "/outputs/evaluation/evaluation.json".
Definition cf_matrix_file : string :=
  "s3://" ++ bucket ++ "/" ++ prefix
  ++ "/outputs/evaluation/confusion_matrix.png".

End Cells.

End EvaluationNotebook.

(** ** Module 5: the deployment notebook *)

Module DeploymentNotebook.
Import Py SDK.

Section Cells.
Variables (bucket role : string).

(** [model.deploy(...)] creates the endpoint and returns its predictor. *)
Variable deploy : TensorFlowModel -> DeployCall -> Predictor.

Definition prefix : string := "cv-sagemaker-immersionday".
Definition TF_FRAMEWORK_VERSION : string := "2.4.1".
Definition ENDPOINT_INSTANCE_TYPE : string := "ml.c5.4xlarge".

Definition bird_model_path : string :=
  "s3://" ++ bucket ++ "/" ++ prefix ++ "/outputs/model/model.tar.gz".

Definition serverless_inf_config : ServerlessInferenceConfig :=
  {| memory_size_in_mb := 4096; max_concurrency := 5 |}.

(** The notebook says to run either Option 1 or Option 2. *)
Inductive DeploymentOption : Type :=
| ServerlessInference
| RealTimeInference.

(** The variables a deployment cell leaves behind. *)
Record DeployCell : Type := {
  model : TensorFlowModel;
  call : DeployCall;
  predictor : Predictor;
  tf_endpoint_name : string
}.

Definition deploy_cell (o : DeploymentOption) : DeployCell :=
  match o with
  | ServerlessInference =>
      let model :=
        {| model_data := bird_model_path;
           model_role := role;
           model_framework_version := TF_FRAMEWORK_VERSION |} in
      let call :=
        {| serverless_inference_config := Some serverless_inf_config;
           initial_instance_count := None;
           deploy_instance_type := None |} in
      let predictor := deploy model call in
      {| model := model; call := call; predictor := predictor;
         tf_endpoint_name := endpoint_name predictor |}
  | RealTimeInference =>
      let model :=
        {| model_data := bird_model_path;
           model_role := role;
           model_framework_version := TF_FRAMEWORK_VERSION |} in
      let call :=
        {| serverless_inference_config := None;
           initial_instance_count := Some 1;
           deploy_instance_type := Some ENDPOINT_INSTANCE_TYPE |} in
      let predictor := deploy model call in
      {| model := model; call := call; predictor := predictor;
         tf_endpoint_name := endpoint_name predictor |}
  end.

(** Inference helpers read the class names and sample test images. *)
Definition classes_file : string :=
  "s3://" ++ bucket ++ "/" ++ prefix ++ "/full/data/classes.txt".
Definition sample_images_prefix : string := prefix ++ "/outputs/test".

End Cells.

End DeploymentNotebook.

(** ** How the standalone notebooks hand data to each other through S3 *)

Module Workshop.
Import Py SDK.
Local Open Scope list_scope.

Inductive Lab : Type := Preprocessing | Training | Evaluation | Deployment.

Definition labs : list Lab := [Preprocessing; Training; Evaluation; Deployment].

(** The number in the name of the lab's directory. *)
Definition lab_number (m : Lab) : nat :=
  match m with
  | Preprocessing => 1
  | Training => 2
  | Evaluation => 3
  | Deployment => 5
  end.

Definition earlier (m' m : Lab) : bool := Nat.ltb (lab_number m') (lab_number m).

(** A lab that comes after another one. *)
Definition later (m : Lab) : bool := existsb (fun m' => earlier m' m) labs.

(** The URI of the object that boto3 addresses by bucket and key. *)
Definition s3_object (bucket key : string) : string :=
  ("s3://" ++ bucket ++ "/" ++ key)%string.

Section Handoffs.
Variables (bucket role account region best_model_uri : string).

(** S3 locations a lab uploads or configures as the destination of a job. *)
Definition writes (m : Lab) : list string :=
  match m with
  | Preprocessing =>
      cp_destination (PreprocessingNotebook.upload bucket)
      :: job_writes (PreprocessingNotebook.run bucket role)
  | Training =>
      [cp_destination (TrainingNotebook.copy_best_model bucket best_model_uri)]
  | Evaluation => job_writes (EvaluationNotebook.run bucket role account region)
  | Deployment => []
  end.

(** S3 locations a lab takes as the input of a job, a model or a helper. *)
Definition reads (m : Lab) : list string :=
  match m with
  | Preprocessing => job_reads (PreprocessingNotebook.run bucket role)
  | Training =>
      flat_map (fun kv => match s3_data (snd kv) with
                          | Const s => [s]
                          | _ => []
                          end) (TrainingNotebook.inputs bucket)
  | Evaluation => job_reads (EvaluationNotebook.run bucket role account region)
  | Deployment =>
      [DeploymentNotebook.bird_model_path bucket;
       DeploymentNotebook.classes_file bucket;
       s3_object bucket DeploymentNotebook.sample_images_prefix]
  end.

(** Every location a later lab reads is literally a location an earlier lab
    wrote. *)
Definition reads_equal_writes : bool :=
  forallb (fun m =>
    negb (later m)
    || forallb (fun r =>
         existsb (fun m' => earlier m' m && existsb (String.eqb r) (writes m'))
           labs)
       (reads m))
    labs.

End Handoffs.

(** Drop one trailing slash. *)
Fixpoint strip_slash (s : string) : string :=
  match s with
  | EmptyString => EmptyString
  | String c s' =>
      match s' with
      | EmptyString => if Ascii.eqb c "/" then EmptyString else s
      | String _ _ => String c (strip_slash s')
      end
  end.

(** Up to a trailing slash, [r] is the location [w], the folder that holds
    the object [w], or an object inside the folder [w]. *)
Definition covers (w r : string) : bool :=
  let w' := strip_slash w in
  let r' := strip_slash r in
  String.eqb r' w'
  || String.prefix (r' ++ "/") w'
  || String.prefix (w' ++ "/") r'.

End Workshop.

(** ** Comparing job configurations *)

Module Shape.
Import Py SDK.
Local Open Scope list_scope.

(** Container path and S3 destination of every output of a job. *)
Definition output_paths (j : ProcessingJob) : list (string * option string) :=
  map (fun o => (output_source o, output_destination o)) (job_outputs j).

(** The outputs of a preprocessing job that exposes the channels [chans]
    under the S3 prefix [base]. *)
Definition channel_paths (chans : list string) (base : string)
  : list (string * option string) :=
  map (fun c => (("/opt/ml/processing/output/" ++ c)%string,
                 Some (base ++ "/" ++ c)%string)) chans.

(** What the container of a job sees: the command, the script, where the
    inputs are mounted and which outputs are collected. *)
Record JobShape : Type := {
  shape_command : option (list string);
  shape_code : string;
  shape_mounts : list string;
  shape_outputs : list (option string * string)
}.

Definition job_shape (j : ProcessingJob) : JobShape :=
  {| shape_command := proc_command (job_processor j);
     shape_code := job_code j;
     shape_mounts := map input_destination (job_inputs j);
     shape_outputs :=
       map (fun o => (output_name o, output_source o)) (job_outputs j) |}.

(** A job with its argument list and its output destinations removed. *)
Definition without_arguments_and_destinations (j : ProcessingJob)
  : ProcessingJob :=
  {| job_processor := job_processor j;
     job_code := job_code j;
     job_arguments := [];
     job_inputs := job_inputs j;
     job_outputs :=
       map (fun o => {| output_name := output_name o;
                        output_source := output_source o;
                        output_destination := None |}) (job_outputs j) |}.

(** The constructor arguments of an estimator other than the spot options
    and the tags. *)
Definition common_arguments (e : TensorFlow) :=
  (entry_point e, source_dir e, output_path e, instance_type e,
   instance_count e, distribution e, hyperparameters e,
   metric_definitions e, role e, framework_version e, py_version e,
   base_job_name e, script_mode e).

Definition spot_options (e : TensorFlow) :=
  (use_spot_instances e, max_run e, max_wait e, checkpoint_s3_uri e).

End Shape.

(** ** The objects the pipeline notebook ends up with *)

Module Built.
Import Py SDK PipelineNotebook.

Section Objects.
Variables (bucket role account region uuid4 : string).
Variable arguments_s3_uri : Step -> nat -> string.

Definition empty_pipeline : Pipeline :=
  {| SDK.pipeline_name := ""; pipeline_parameters := [];
     pipeline_steps := [] |}.

Definition pipeline_value : Pipeline :=
  match pipeline bucket role account region uuid4 arguments_s3_uri with
  | Some p => p
  | None => empty_pipeline
  end.

(** The steps the loops store under training type [t]. *)
Definition training_step (t : string) : option Step :=
  match training_cell bucket role uuid4 with
  | Some tr => dict_get (training_steps tr) t
  | None => None
  end.

Definition eval_step (t : string) : option Step :=
  match eval_cell bucket role account region uuid4 with
  | Some ev => dict_get (eval_steps ev) t
  | None => None
  end.

Definition eval_report (t : string) : option PropertyFile :=
  match eval_cell bucket role account region uuid4 with
  | Some ev => dict_get (eval_reports ev) t
  | None => None
  end.

Definition eval_job (t : string) : option ProcessingJob :=
  match eval_step t with
  | Some s => step_job s
  | None => None
  end.

Definition register_step (t : string) : option Step :=
  match register_cell bucket role account region uuid4 arguments_s3_uri with
  | Some regs => dict_get regs t
  | None => None
  end.

Definition condition_step (t : string) : option Step :=
  match condition_cell bucket role account region uuid4 arguments_s3_uri with
  | Some conds => dict_get conds t
  | None => None
  end.

End Objects.

(** One concrete account, used to run the notebook cells; the SDK is taken
    to place the outputs of a step under the name of the step. *)
Definition sample_arguments_s3_uri (s : Step) (i : nat) : string :=
  "s3://my-bucket/" ++ step_name s ++ "/output/evaluation".

Definition sample_pipeline : Pipeline :=
  Eval vm_compute in
    pipeline_value "my-bucket" "arn:aws:iam::123456789012:role/workshop"
      "123456789012" "eu-west-1" "0f8fad5b" sample_arguments_s3_uri.

(** The order in which the notebook lists the steps. *)
Definition sample_order : list string :=
  Eval vm_compute in map step_name (pipeline_steps sample_pipeline).

(** An [evaluation.json] with accuracy 0.85, written by the evaluation step
    of the spot model. *)
Definition sample_report : Service.json :=
  Service.JObject
    [("multiclass_classification_metrics",
      Service.JObject
        [("accuracy",
          Service.JObject
            [("value", Service.JNumber 0.85%float);
             ("standard_deviation", Service.JString "NaN")])])].

Definition sample_outputs : Service.outputs :=
  fun step output file =>
    if (String.eqb step "BirdClassificationSpotEval"
        && String.eqb output "evaluation"
        && String.eqb file "evaluation.json")%bool
    then Some sample_report else None.

End Built.

(** ** The pipeline cells for any value of [training_options] *)

Module PipelineLoops.
Import Py SDK.
Local Open Scope list_scope.

Local Notation "x <- e ;; k" :=
  (match e with Some x => k | None => None end)
  (at level 61, e at next level, right associativity).

(** The keys of a dictionary filled by [d[k] = v] for [k] in turn: a key
    that is already present keeps its place. *)
Definition add_key (ks : list string) (k : string) : list string :=
  if existsb (String.eqb k) ks then ks else ks ++ [k].

Definition keys_after (l ks : list string) : list string :=
  fold_left add_key l ks.

(** The training options without repetitions, in order of first
    occurrence. *)
Definition distinct_options (options : list string) : list string :=
  keys_after options [].

(** The dictionary that holds [f k] under every key [k] of [ks]. *)
Definition image {V} (f : string -> V) (ks : list string) : dict V :=
  map (fun k => (k, f k)) ks.

Section Loops.
Variables (bucket role account region uuid4 : string).

Variable arguments_s3_uri : Step -> nat -> string.

(** The list that the notebook variable [training_options] holds when the
    cells run. *)
Variable options : list string.

Definition training_cell : option PipelineNotebook.TrainingCell :=
  for_each (PipelineNotebook.training_body bucket role uuid4) options
    {| PipelineNotebook.training_steps := [];
       PipelineNotebook.training_estimators := [];
       PipelineNotebook.models := [] |}.

Definition eval_cell : option PipelineNotebook.EvalCell :=
  tr <- training_cell ;;
  for_each (PipelineNotebook.eval_body bucket role account region uuid4 tr)
    options
    {| PipelineNotebook.eval_steps := [];
       PipelineNotebook.eval_reports := [] |}.

Definition register_cell : option (dict Step) :=
  tr <- training_cell ;;
  ev <- eval_cell ;;
  for_each (PipelineNotebook.register_body arguments_s3_uri tr ev) options [].

Definition condition_cell : option (dict Step) :=
  ev <- eval_cell ;;
  regs <- register_cell ;;
  for_each (PipelineNotebook.condition_body ev regs) options [].

Definition steps : option (list Step) :=
  tr <- training_cell ;;
  ev <- eval_cell ;;
  conds <- condition_cell ;;
  s1 <- PipelineNotebook.append_all (PipelineNotebook.training_steps tr)
          [PipelineNotebook.step_process bucket role uuid4] ;;
  s2 <- PipelineNotebook.append_all (PipelineNotebook.eval_steps ev) s1 ;;
  PipelineNotebook.append_all conds s2.

Definition pipeline : option Pipeline :=
  steps <- steps ;;
  Some {| pipeline_name := PipelineNotebook.pipeline_name;
          pipeline_parameters :=
            [PipelineNotebook.processing_instance_count;
             PipelineNotebook.input_data bucket;
             PipelineNotebook.input_annotation;
             PipelineNotebook.class_selection];
          pipeline_steps := steps |}.

(** *** What one pass of each loop body stores for training type [t] *)

Definition train_name (t : string) : string :=
  ("BirdClassification" ++ t ++ "Train")%string.
Definition eval_name (t : string) : string :=
  ("BirdClassification" ++ t ++ "Eval")%string.
Definition condition_name (t : string) : string :=
  ("BirdClassification" ++ t ++ "Condition")%string.
Definition register_name (t : string) : string :=
  ("Register" ++ t ++ "Model")%string.

Definition train_step_of (t : string) : Step :=
  TrainingStep (train_name t)
    (PipelineNotebook.make_estimator bucket role uuid4 t)
    (PipelineNotebook.inputs bucket role uuid4)
    (Some PipelineNotebook.cache_config).

Definition model_of (t : string) : arg string :=
  Ref (S3ModelArtifacts (train_name t)).

Definition report_of (t : string) : PropertyFile :=
  {| pf_name := ("Evaluation" ++ t ++ "Report")%string;
     pf_output_name := "evaluation";
     pf_path := "evaluation.json" |}.

Definition eval_step_of (t : string) : Step :=
  ProcessingStep (eval_name t)
    {| proc_base_job_name := (PipelineNotebook.prefix ++ "-evaluation")%string;
       proc_framework_version := None;
       proc_command := Some ["python3"%string];
       proc_image_uri := Some (PipelineNotebook.image_uri account region);
       proc_role := role;
       proc_instance_type := Const PipelineNotebook.processing_instance_type;
       proc_instance_count :=
         Param PipelineNotebook.processing_instance_count;
       proc_sagemaker_session := Some PipelineSession |}
    "evaluation.py"
    []
    [{| input_source :=
          Ref (ProcessingOutputS3Uri "BirdClassificationPreProcess"
                 "test_data");
        input_destination := "/opt/ml/processing/input/test" |};
     {| input_source :=
          Ref (ProcessingOutputS3Uri "BirdClassificationPreProcess"
                 "manifest");
        input_destination := "/opt/ml/processing/input/manifest" |};
     {| input_source := model_of t;
        input_destination := "/opt/ml/processing/model" |}]
    [{| output_name := Some "evaluation"%string;
        output_source := "/opt/ml/processing/evaluation";
        output_destination := None |}]
    [report_of t]
    (Some PipelineNotebook.cache_config).

Definition register_step_of (t : string) : Step :=
  RegisterModel (register_name t)
    (PipelineNotebook.make_estimator bucket role uuid4 t)
    (model_of t)
    ["application/x-image"%string]
    ["application/json"%string]
    ["ml.t2.medium"%string; "ml.m5.large"%string]
    ["ml.m5.large"%string]
    PipelineNotebook.model_package_group_name
    {| model_statistics :=
         {| s3_uri :=
              Const (arguments_s3_uri (eval_step_of t) 0
                     ++ "/evaluation.json")%string;
            content_type := "application/json" |} |}.

Definition condition_step_of (t : string) : Step :=
  ConditionStep (condition_name t)
    [ConditionGreaterThanOrEqualTo
       {| jg_step_name := eval_name t;
          jg_property_file := report_of t;
          jg_json_path :=
            "multiclass_classification_metrics.accuracy.value" |}
       0.7%float]
    [register_step_of t]
    [].

(** The cells after the loops have run over options with distinct keys
    [ks]. *)
Definition trained (ks : list string) : PipelineNotebook.TrainingCell :=
  {| PipelineNotebook.training_steps := image train_step_of ks;
     PipelineNotebook.training_estimators :=
       image (PipelineNotebook.make_estimator bucket role uuid4) ks;
     PipelineNotebook.models := image model_of ks |}.

Definition evaluated (ks : list string) : PipelineNotebook.EvalCell :=
  {| PipelineNotebook.eval_steps := image eval_step_of ks;
     PipelineNotebook.eval_reports := image report_of ks |}.

End Loops.

End PipelineLoops.

(** ** The review cell of the preprocessing notebook *)

Module PreprocessingReview.
Import Py.
Local Open Scope list_scope.

(** One entry of [Contents] in the answer of [list_objects_v2]. *)
Record S3Object : Type := {
  Key : string;
  Size : Z
}.

(** [str(n)] for a Python [int]. *)
Definition str_int (n : Z) : string :=
  DecimalString.NilZero.string_of_int (Z.to_int n).

(** [f"file_name: {file['Key']}, size: {file['Size']}"] *)
Definition line (file : S3Object) : string :=
  ("file_name: " ++ Key file ++ ", size: " ++ str_int (Size file))%string.

(** [files = response.get("Contents")] and the loop that prints a line per
    file.  The answer carries no [Contents] when no key has the prefix;
    iterating over [None] raises [TypeError] ([None] here). *)
Definition review (response : dict (list S3Object)) : option (list string) :=
  match dict_get response "Contents" with
  | Some files => Some (map line files)
  | None => None
  end.

End PreprocessingReview.

(** ** The review cell of the model-evaluation notebook *)

Module EvaluationReview.
Import Py.

(** [json_content['multiclass_classification_metrics']]; a report without
    that member raises [KeyError] ([None] here). *)
Definition review (json_content : Service.json) : option Service.json :=
  match json_content with
  | Service.JObject members =>
      dict_get members "multiclass_classification_metrics"
  | _ => None
  end.

End EvaluationReview.

(** ** The inference cells of the deployment notebook *)

Module DeploymentInference.
Import Py SDK.

Inductive Serializer : Type := IdentitySerializer (content_type : string).
Inductive Deserializer : Type := JSONDeserializer (accept : string).

(** [Predictor(endpoint_name, serializer, deserializer)] *)
Record InferencePredictor : Type := {
  predictor_endpoint_name : string;
  serializer : Serializer;
  deserializer : Deserializer
}.

(** The variables the predictor cell leaves behind. *)
Record PredictorCell : Type := {
  tf_endpoint_name : string;
  predictor : InferencePredictor
}.

(** The cell assigns [tf_endpoint_name] anew before it builds the
    predictor; [prev] is what the deployment cell left. *)
Definition predictor_cell (prev : DeploymentNotebook.DeployCell)
  : PredictorCell :=
  let tf_endpoint_name := "<SAGEMAKER DEPLOYED ENDPOINT NAME>" in
  let serializer := IdentitySerializer "application/x-image" in
  let deserializer := JSONDeserializer "application/json" in
  {| tf_endpoint_name := tf_endpoint_name;
     predictor :=
       {| predictor_endpoint_name := tf_endpoint_name;
          serializer := serializer;
          deserializer := deserializer |} |}.

(** [classes = [13, 17, 35, 36, 47, 68, 73, 87]], the classes whose names
    label the predictions. *)
Definition classes : list Z := [13; 17; 35; 36; 47; 68; 73; 87].

(** [sep.join(parts)], to write a list of classes the way the class
    selection strings of the other notebooks are written. *)
Fixpoint join (sep : string) (parts : list string) : string :=
  match parts with
  | [] => EmptyString
  | [p] => p
  | p :: rest => (p ++ sep ++ join sep rest)%string
  end.

End DeploymentInference.

(** * Properties of the configured jobs *)

Import Py SDK Service.

(** ** Strings and list membership *)

Lemma append_assoc (s1 s2 s3 : string) : (s1 ++ s2) ++ s3 = s1 ++ s2 ++ s3.
Proof. induction s1 as [|c s1 IH]; cbn; [reflexivity | now rewrite IH]. Qed.

Lemma eqb_app (a b c : string) :
  String.eqb (a ++ b) (a ++ c) = String.eqb b c.
Proof.
  induction a as [|x a IH]; [reflexivity |].
  cbn. now rewrite Ascii.eqb_refl.
Qed.

Lemma prefix_app (a b c : string) :
  String.prefix (a ++ b) (a ++ c) = String.prefix b c.
Proof.
  induction a as [|x a IH]; [reflexivity |].
  cbn. destruct (ascii_dec x x); [exact IH | contradiction].
Qed.

Lemma strip_slash_app (a : string) (c : ascii) (b : string) :
  Workshop.strip_slash (a ++ String c b)
  = a ++ Workshop.strip_slash (String c b).
Proof.
  induction a as [|x a IH]; [reflexivity |].
  cbn [append]. cbn [Workshop.strip_slash]. rewrite IH.
  destruct a; reflexivity.
Qed.

Lemma covers_app (a : string) (c d : ascii) (w r : string) :
  Workshop.covers (a ++ String c w) (a ++ String d r)
  = Workshop.covers (String c w) (String d r).
Proof.
  unfold Workshop.covers. rewrite !strip_slash_app.
  rewrite !append_assoc, !eqb_app, !prefix_app. reflexivity.
Qed.

Lemma covers_in_bucket (bucket w r : string) (c d : ascii) :
  Workshop.covers (String c w) (String d r) = true ->
  Workshop.covers ("s3://" ++ bucket ++ String c w)
    ("s3://" ++ bucket ++ String d r) = true.
Proof.
  intro H.
  change ("s3://" ++ bucket ++ String c w)
    with (("s3://" ++ bucket) ++ String c w).
  change ("s3://" ++ bucket ++ String d r)
    with (("s3://" ++ bucket) ++ String d r).
  rewrite covers_app. exact H.
Qed.

(** Unfold the cells around the free strings, re-associate, compare. *)
Ltac flat_strings := cbv -[append]; rewrite ?append_assoc; reflexivity.

(** Membership in a literal list: the first element that fits. *)
Ltac in_list := cbn; repeat first [left; reflexivity | right].

(** Membership in a literal list, trying the elements in turn. *)
Ltac pick := cbn [In]; ((left; reflexivity) + (right; pick)).

Ltac covered_by :=
  eexists; split; [reflexivity |];
  split; [pick | apply covers_in_bucket; reflexivity].

(** ** Execution orders and branches *)

Lemma execution_order_dependency (p : Pipeline) (order : list string)
  (s : Step) (d : string) :
  execution_order p order = true ->
  In s (pipeline_steps p) -> In d (depends_on s) ->
  precedes d (step_name s) order = true.
Proof.
  unfold execution_order. intros H Hs Hd.
  apply andb_prop in H as [_ H].
  rewrite forallb_forall in H. specialize (H s Hs).
  apply andb_prop in H as [_ H].
  rewrite forallb_forall in H. exact (H d Hd).
Qed.

Lemma execution_order_table (p : Pipeline) (order : list string)
  (n d : string) (ds : list string) :
  execution_order p order = true ->
  In (n, ds) (map (fun s => (step_name s, depends_on s)) (pipeline_steps p)) ->
  In d ds ->
  precedes d n order = true.
Proof.
  intros H Hn Hd.
  apply in_map_iff in Hn as [s [E Hs]]. injection E as <- <-.
  eapply execution_order_dependency; eauto.
Qed.

Lemma branch_accuracy_gate (o : outputs) (n sname path : string)
  (pf : PropertyFile) (r : float) (ifs : list Step) (doc : json)
  (acc : float) :
  o sname (pf_output_name pf) (pf_path pf) = Some doc ->
  json_lookup (split_on "." path) doc = Some (JNumber acc) ->
  branch o (ConditionStep n
              [ConditionGreaterThanOrEqualTo
                 {| jg_step_name := sname; jg_property_file := pf;
                    jg_json_path := path |} r] ifs [])
  = if PrimFloat.leb r acc then ifs else [].
Proof.
  intros Hdoc Hacc. unfold branch, all_hold, holds, json_get. cbn.
  rewrite Hdoc, Hacc. destruct (PrimFloat.leb r acc); reflexivity.
Qed.

Lemma branch_not_evaluated (o : outputs) (n : string) (c : Condition)
  (ifs elses : list Step) :
  holds o c = None -> branch o (ConditionStep n [c] ifs elses) = [].
Proof. intros H. unfold branch, all_hold. now rewrite H. Qed.

Lemma launched_names (o : outputs) (p : Pipeline) :
  launched o p = map step_name (launched_steps o p).
Proof.
  unfold launched, launched_steps.
  induction (pipeline_steps p) as [|s l IH]; [reflexivity |].
  cbn. now rewrite map_app, IH.
Qed.

(** ** The pipeline *)

Section PipelineFacts.
Variables (bucket role account region uuid4 : string).
Variable arguments_s3_uri : Step -> nat -> string.

Local Abbreviation the_pipeline :=
  (PipelineNotebook.pipeline bucket role account region uuid4
     arguments_s3_uri).
Local Abbreviation built :=
  (Built.pipeline_value bucket role account region uuid4 arguments_s3_uri).

(** No dictionary lookup of the notebook raises [KeyError]. *)
Lemma pipeline_defined : the_pipeline = Some built.
Proof. reflexivity. Qed.

Lemma pipeline_steps_built :
  map Some (pipeline_steps built)
  = [Some (PipelineNotebook.step_process bucket role uuid4);
     Built.training_step bucket role uuid4 "Spot";
     Built.training_step bucket role uuid4 "OnDemand";
     Built.eval_step bucket role account region uuid4 "Spot";
     Built.eval_step bucket role account region uuid4 "OnDemand";
     Built.condition_step bucket role account region uuid4 arguments_s3_uri
       "Spot";
     Built.condition_step bucket role account region uuid4 arguments_s3_uri
       "OnDemand"].
Proof. reflexivity. Qed.

Lemma pipeline_dependency_table :
  map (fun s => (step_name s, depends_on s)) (pipeline_steps built)
  = [("BirdClassificationPreProcess", []);
     ("BirdClassificationSpotTrain",
      ["BirdClassificationPreProcess"; "BirdClassificationPreProcess";
       "BirdClassificationPreProcess"]);
     ("BirdClassificationOnDemandTrain",
      ["BirdClassificationPreProcess"; "BirdClassificationPreProcess";
       "BirdClassificationPreProcess"]);
     ("BirdClassificationSpotEval",
      ["BirdClassificationPreProcess"; "BirdClassificationPreProcess";
       "BirdClassificationSpotTrain"]);
     ("BirdClassificationOnDemandEval",
      ["BirdClassificationPreProcess"; "BirdClassificationPreProcess";
       "BirdClassificationOnDemandTrain"]);
     ("BirdClassificationSpotCondition", ["BirdClassificationSpotEval"]);
     ("BirdClassificationOnDemandCondition",
      ["BirdClassificationOnDemandEval"])].
Proof. reflexivity. Qed.

(** C1.  For a training type [t] of the loop, the registration step
    [Register<t>Model] registers the estimator and the [S3ModelArtifacts] of
    the training step of [t], with the metrics file of the evaluation step
    of [t]; it is the only [if_steps] entry of the condition step
    [BirdClassification<t>Condition], whose single condition is
    [JsonGet(<t>'s evaluation step, <t>'s report,
    "multiclass_classification_metrics.accuracy.value") >= 0.7] and whose
    else-branch is empty; it is no step of the pipeline itself and occurs in
    no other branch.  Hence, when the report of [t] holds an accuracy value
    [acc], an execution launches that registration step exactly when
    [0.7 <= acc] as binary64 numbers; when the condition cannot be
    evaluated it launches none. *)
Theorem registration_gated_by_accuracy (p : Pipeline) (t : string) :
  the_pipeline = Some p ->
  In t PipelineNotebook.training_options ->
  exists ev reg cond,
    Built.eval_step bucket role account region uuid4 t = Some ev
    /\ step_name ev = "BirdClassification" ++ t ++ "Eval"
    /\ In ev (pipeline_steps p)
    /\ In (TrainingStep ("BirdClassification" ++ t ++ "Train")
             (PipelineNotebook.make_estimator bucket role uuid4 t)
             (PipelineNotebook.inputs bucket role uuid4)
             (Some PipelineNotebook.cache_config))
         (pipeline_steps p)
    /\ reg = RegisterModel ("Register" ++ t ++ "Model")
               (PipelineNotebook.make_estimator bucket role uuid4 t)
               (Ref (S3ModelArtifacts
                       ("BirdClassification" ++ t ++ "Train")))
               ["application/x-image"] ["application/json"]
               ["ml.t2.medium"; "ml.m5.large"] ["ml.m5.large"]
               "cv-sagemaker-immersionday-model-group"
               {| model_statistics :=
                    {| s3_uri :=
                         Const (arguments_s3_uri ev 0 ++ "/evaluation.json");
                       content_type := "application/json" |} |}
    /\ Built.register_step bucket role account region uuid4
         arguments_s3_uri t = Some reg
    /\ cond = ConditionGreaterThanOrEqualTo
                {| jg_step_name := "BirdClassification" ++ t ++ "Eval";
                   jg_property_file :=
                     {| pf_name := "Evaluation" ++ t ++ "Report";
                        pf_output_name := "evaluation";
                        pf_path := "evaluation.json" |};
                   jg_json_path :=
                     "multiclass_classification_metrics.accuracy.value" |}
                0.7%float
    /\ In (ConditionStep ("BirdClassification" ++ t ++ "Condition")
             [cond] [reg] [])
         (pipeline_steps p)
    /\ ~ In ("Register" ++ t ++ "Model") (map step_name (pipeline_steps p))
    /\ (forall s,
          In s (pipeline_steps p) ->
          ~ In ("Register" ++ t ++ "Model")
              (map step_name (snd (branch_steps s)))
          /\ (In ("Register" ++ t ++ "Model")
                (map step_name (fst (branch_steps s))) ->
              step_name s = "BirdClassification" ++ t ++ "Condition"))
    /\ (forall (o : outputs) (doc : json) (acc : float),
          o ("BirdClassification" ++ t ++ "Eval") "evaluation"
            "evaluation.json" = Some doc ->
          json_lookup
            ["multiclass_classification_metrics"; "accuracy"; "value"]
            doc = Some (JNumber acc) ->
          (In reg (launched_steps o p)
           <-> PrimFloat.leb 0.7%float acc = true)
          /\ (In ("Register" ++ t ++ "Model") (launched o p)
              <-> PrimFloat.leb 0.7%float acc = true))
    /\ (forall o : outputs,
          holds o cond = None ->
          ~ In ("Register" ++ t ++ "Model") (launched o p)).
Proof.
  intros Hp Ht. rewrite pipeline_defined in Hp. injection Hp as <-.
  assert (Ht' : t = "Spot" \/ t = "OnDemand") by (cbn in Ht; intuition).
  clear Ht.
  do 3 eexists.
  split; [destruct Ht' as [-> | ->]; reflexivity |].
  split; [destruct Ht' as [-> | ->]; reflexivity |].
  split; [destruct Ht' as [-> | ->]; in_list |].
  split; [destruct Ht' as [-> | ->]; in_list |].
  split; [reflexivity |].
  split; [destruct Ht' as [-> | ->]; reflexivity |].
  split; [reflexivity |].
  match goal with |- ?A /\ _ => assert (Hcond : A) end.
  { destruct Ht' as [-> | ->]; in_list. }
  split; [exact Hcond |]. split; [| split; [| split]].
  - destruct Ht' as [-> | ->]; cbn; intuition discriminate.
  - intros s Hs. destruct Ht' as [-> | ->]; cbn in Hs;
      repeat (destruct Hs as [<- | Hs]; [cbn; intuition discriminate |]);
      contradiction.
  - intros o doc acc Hdoc Hacc.
    assert (Hnames : In ("Register" ++ t ++ "Model") (launched o built)
                     <-> PrimFloat.leb 0.7%float acc = true).
    { unfold launched. rewrite in_flat_map. split.
      + intros [s [Hs Hin]].
        destruct Ht' as [-> | ->]; cbn in Hs, Hdoc;
          repeat (destruct Hs as [<- | Hs];
                  [ first
                      [ solve [cbn in Hin; intuition discriminate]
                      | erewrite branch_accuracy_gate in Hin by eassumption;
                        destruct (PrimFloat.leb 0.7%float acc);
                        [reflexivity | cbn in Hin; intuition discriminate]
                      | unfold branch in Hin;
                        match type of Hin with
                        | context [all_hold ?o ?cs] =>
                            destruct (all_hold o cs) as [[|]|]
                        end; cbn in Hin; intuition discriminate ]
                  | ]);
          contradiction.
      + intro Hle. eexists. split; [exact Hcond |].
        right. erewrite branch_accuracy_gate.
        * rewrite Hle. left. reflexivity.
        * destruct Ht' as [-> | ->]; exact Hdoc.
        * exact Hacc. }
    split; [| exact Hnames].
    split.
    + intros Hin. apply Hnames. rewrite launched_names.
      apply (in_map step_name) in Hin. exact Hin.
    + intro Hle. unfold launched_steps. apply in_flat_map.
      eexists. split; [exact Hcond |].
      right. erewrite branch_accuracy_gate.
      * rewrite Hle. left. reflexivity.
      * destruct Ht' as [-> | ->]; exact Hdoc.
      * exact Hacc.
  - intros o Hnone. unfold launched. rewrite in_flat_map.
    intros [s [Hs Hin]].
    destruct Ht' as [-> | ->]; cbn in Hs;
      repeat (destruct Hs as [<- | Hs];
              [ first
                  [ solve [cbn in Hin; intuition discriminate]
                  | rewrite (branch_not_evaluated _ _ _ _ _ Hnone) in Hin;
                    cbn in Hin; intuition discriminate
                  | unfold branch in Hin;
                    match type of Hin with
                    | context [all_hold ?o ?cs] =>
                        destruct (all_hold o cs) as [[|]|]
                    end; cbn in Hin; intuition discriminate ]
              | ]);
      contradiction.
Qed.

(** C2.  Both training steps take [train], [test] and [validation] from the
    output properties of the preprocessing step; the evaluation step of [t]
    mounts the preprocessing outputs [test_data] and [manifest] and the
    [S3ModelArtifacts] of the training step of [t]; the condition step of [t]
    reads the property file that the evaluation step of [t] declares.  So in
    every execution order that respects the dependencies, preprocessing
    precedes the training of [t], which precedes the evaluation of [t],
    which precedes the condition step of [t]. *)
Theorem dependencies_order_the_steps (p : Pipeline) (order : list string) :
  the_pipeline = Some p ->
  execution_order p order = true ->
  Forall (fun t =>
    (exists e ins c,
       In (TrainingStep ("BirdClassification" ++ t ++ "Train") e ins c)
          (pipeline_steps p)
       /\ map (fun kv => (fst kv, s3_data (snd kv))) ins
          = [("train",
              Ref (ProcessingOutputS3Uri "BirdClassificationPreProcess"
                     "train_data"));
             ("test",
              Ref (ProcessingOutputS3Uri "BirdClassificationPreProcess"
                     "test_data"));
             ("validation",
              Ref (ProcessingOutputS3Uri "BirdClassificationPreProcess"
                     "val_data"))])
    /\ (exists pr code args ins outs pfs c,
          In (ProcessingStep ("BirdClassification" ++ t ++ "Eval")
                pr code args ins outs pfs c) (pipeline_steps p)
          /\ map (fun i => (input_destination i, input_source i)) ins
             = [("/opt/ml/processing/input/test",
                 Ref (ProcessingOutputS3Uri "BirdClassificationPreProcess"
                        "test_data"));
                ("/opt/ml/processing/input/manifest",
                 Ref (ProcessingOutputS3Uri "BirdClassificationPreProcess"
                        "manifest"));
                ("/opt/ml/processing/model",
                 Ref (S3ModelArtifacts
                        ("BirdClassification" ++ t ++ "Train")))]
          /\ (exists conds ifs elses,
                In (ConditionStep
                      ("BirdClassification" ++ t ++ "Condition")
                      conds ifs elses) (pipeline_steps p)
                /\ map (fun c =>
                     match c with
                     | ConditionGreaterThanOrEqualTo l _ =>
                         (jg_step_name l, jg_property_file l)
                     end) conds
                   = [("BirdClassification" ++ t ++ "Eval",
                       {| pf_name := "Evaluation" ++ t ++ "Report";
                          pf_output_name := "evaluation";
                          pf_path := "evaluation.json" |})]
                /\ pfs = map (fun c =>
                     match c with
                     | ConditionGreaterThanOrEqualTo l _ =>
                         jg_property_file l
                     end) conds))
    /\ precedes "BirdClassificationPreProcess"
         ("BirdClassification" ++ t ++ "Train") order = true
    /\ precedes ("BirdClassification" ++ t ++ "Train")
         ("BirdClassification" ++ t ++ "Eval") order = true
    /\ precedes ("BirdClassification" ++ t ++ "Eval")
         ("BirdClassification" ++ t ++ "Condition") order = true)
    PipelineNotebook.training_options.
Proof.
  intros Hp Ho. rewrite pipeline_defined in Hp. injection Hp as <-.
  assert (Hdep : forall n d ds,
             In (n, ds) (map (fun s => (step_name s, depends_on s))
                           (pipeline_steps built)) ->
             In d ds -> precedes d n order = true)
    by (intros; eapply execution_order_table; eauto).
  rewrite pipeline_dependency_table in Hdep.
  repeat constructor.
  all: try (do 3 eexists; split; [in_list | reflexivity]).
  all: try (do 7 eexists; split; [in_list |];
            split; [reflexivity |];
            do 3 eexists; split; [in_list |]; split; reflexivity).
  all: eapply Hdep; in_list.
Qed.

(** C5.  The pipeline has exactly two training steps.  The estimator tagged
    [TrainingType=Spot] sets [use_spot_instances=True], [max_run=36000],
    [max_wait=43200] and a checkpoint URI; the one tagged
    [TrainingType=OnDemand] sets none of the four; every other constructor
    argument is the same in both. *)
Theorem spot_and_on_demand_estimators :
  exists p e_spot e_od,
    the_pipeline = Some p
    /\ map step_estimator (filter is_training_step (pipeline_steps p))
       = [Some e_spot; Some e_od]
    /\ tags e_spot = Some [[("Key", "TrainingType"); ("Value", "Spot")]]
    /\ tags e_od = Some [[("Key", "TrainingType"); ("Value", "OnDemand")]]
    /\ use_spot_instances e_spot = Some true
    /\ max_run e_spot = Some 36000
    /\ max_wait e_spot = Some 43200
    /\ 36000 <= 43200
    /\ checkpoint_s3_uri e_spot
       = Some ("s3://" ++ bucket
               ++ "/cv-sagemaker-immersionday/outputs/pipelines/" ++ uuid4
               ++ "/outputcheckpoints")
    /\ Shape.spot_options e_od = (None, None, None, None)
    /\ Shape.common_arguments e_spot = Shape.common_arguments e_od.
Proof.
  do 3 eexists. split; [apply pipeline_defined |].
  split; [reflexivity |].
  repeat split; try reflexivity; try lia.
  flat_strings.
Qed.

(** C7.  The preprocessing step, both training steps and both evaluation
    steps carry the one [CacheConfig(enable_caching=True,
    expire_after="30d")]; the two condition steps carry none. *)
Theorem cache_config_on_cacheable_steps :
  exists p,
    the_pipeline = Some p
    /\ PipelineNotebook.cache_config
       = {| enable_caching := true; expire_after := "30d" |}
    /\ map step_name (filter (fun s => negb (is_condition_step s))
                        (pipeline_steps p))
       = ["BirdClassificationPreProcess";
          "BirdClassificationSpotTrain"; "BirdClassificationOnDemandTrain";
          "BirdClassificationSpotEval"; "BirdClassificationOnDemandEval"]
    /\ map step_name (filter is_condition_step (pipeline_steps p))
       = ["BirdClassificationSpotCondition";
          "BirdClassificationOnDemandCondition"]
    /\ Forall (fun s =>
         step_cache_config s
         = if is_condition_step s then None
           else Some PipelineNotebook.cache_config)
       (pipeline_steps p).
Proof.
  eexists. split; [apply pipeline_defined |].
  split; [reflexivity |]. split; [reflexivity |]. split; [reflexivity |].
  repeat constructor.
Qed.

(** C9.  The pipeline declares exactly the four parameters
    [ProcessingInstanceCount] (integer, 1), [InputDataUrl] (string, the raw
    data URI), [AnnotationFileName] (string, "classes.txt") and
    [ClassSelection] (string, "13, 17, 35, 36, 47, 68, 73, 87"), and its
    steps refer to no other parameter.  The training instance type
    [ml.c5.4xlarge], the training instance count 1 and the processing
    instance type [ml.m5.xlarge] are constants: they resolve to the same
    value whatever an execution overrides. *)
Theorem pipeline_parameters_and_constants :
  exists p,
    the_pipeline = Some p
    /\ pipeline_parameters p
       = [ParameterInteger "ProcessingInstanceCount" 1;
          ParameterString "InputDataUrl"
            ("s3://" ++ bucket ++ "/cv-sagemaker-immersionday/full/data");
          ParameterString "AnnotationFileName" "classes.txt";
          ParameterString "ClassSelection" "13, 17, 35, 36, 47, 68, 73, 87"]
    /\ length (pipeline_parameters p) = 4%nat
    /\ incl (flat_map step_params (pipeline_steps p)) (pipeline_parameters p)
    /\ Forall (fun s =>
         match s with
         | TrainingStep _ e _ _ =>
             instance_type e = Const "ml.c5.4xlarge"
             /\ instance_count e = Const 1
             /\ forall overrides,
                  resolve_string overrides (instance_type e)
                  = Some "ml.c5.4xlarge"
                  /\ resolve_int overrides (instance_count e) = Some 1
         | ProcessingStep _ pr _ _ _ _ _ _ =>
             proc_instance_type pr = Const "ml.m5.xlarge"
             /\ forall overrides,
                  resolve_string overrides (proc_instance_type pr)
                  = Some "ml.m5.xlarge"
         | _ => True
         end) (pipeline_steps p).
Proof.
  eexists. split; [apply pipeline_defined |].
  split; [reflexivity |]. split; [reflexivity |].
  split.
  - intros x Hx. cbn in Hx |- *.
    repeat (destruct Hx as [Hx | Hx]; [subst x; auto 10 |]). contradiction.
  - repeat constructor.
Qed.

End PipelineFacts.

(** The spot model of the sample execution has accuracy 0.85 and is
    registered. *)
Lemma registration_gated_by_accuracy_witness :
  In "RegisterSpotModel" (launched Built.sample_outputs Built.sample_pipeline)
  <-> PrimFloat.leb 0.7%float 0.85%float = true.
Proof.
  assert (Hp : PipelineNotebook.pipeline "my-bucket"
                 "arn:aws:iam::123456789012:role/workshop" "123456789012"
                 "eu-west-1" "0f8fad5b" Built.sample_arguments_s3_uri
               = Some Built.sample_pipeline)
    by (vm_compute; reflexivity).
  assert (Ht : In "Spot" PipelineNotebook.training_options)
    by (cbn; auto).
  destruct (registration_gated_by_accuracy "my-bucket"
              "arn:aws:iam::123456789012:role/workshop" "123456789012"
              "eu-west-1" "0f8fad5b" Built.sample_arguments_s3_uri
              Built.sample_pipeline "Spot" Hp Ht)
    as (ev & reg & cond & _ & _ & _ & _ & _ & _ & _ & _ & _ & _ & Hiff & _).
  apply (Hiff Built.sample_outputs Built.sample_report 0.85%float);
    reflexivity.
Defined.

(** The order in which the notebook lists the steps respects the
    dependencies, and spot training precedes spot evaluation in it. *)
Lemma dependencies_order_the_steps_witness :
  execution_order Built.sample_pipeline Built.sample_order = true
  /\ precedes "BirdClassificationSpotTrain" "BirdClassificationSpotEval"
       Built.sample_order = true.
Proof.
  split; [vm_compute; reflexivity |].
  assert (H := dependencies_order_the_steps "my-bucket"
                 "arn:aws:iam::123456789012:role/workshop" "123456789012"
                 "eu-west-1" "0f8fad5b" Built.sample_arguments_s3_uri
                 Built.sample_pipeline Built.sample_order).
  assert (Hp : PipelineNotebook.pipeline "my-bucket"
                 "arn:aws:iam::123456789012:role/workshop" "123456789012"
                 "eu-west-1" "0f8fad5b" Built.sample_arguments_s3_uri
               = Some Built.sample_pipeline)
    by (vm_compute; reflexivity).
  assert (Ho : execution_order Built.sample_pipeline Built.sample_order = true)
    by (vm_compute; reflexivity).
  specialize (H Hp Ho).
  apply Forall_inv in H. apply H.
Defined.

(** ** The standalone notebooks *)

Section Standalone.
Variables (bucket role account region uuid4 best_model_uri : string).

Local Abbreviation standalone_eval :=
  (EvaluationNotebook.run bucket role account region).
Local Abbreviation reads := (Workshop.reads bucket role account region).
Local Abbreviation writes :=
  (Workshop.writes bucket role account region best_model_uri).

(** C3, as the code has it.  Both preprocessing jobs declare four outputs
    whose container paths and S3 destination suffixes are the channel names:
    [train], [validation], [test], [manifest] in the pipeline step, and
    [train], [valid], [test], [manifest] in the standalone run. *)
Theorem preprocessing_output_channels :
  exists j,
    step_job (PipelineNotebook.step_process bucket role uuid4) = Some j
    /\ length (job_outputs j) = 4%nat
    /\ Shape.output_paths j
       = Shape.channel_paths ["train"; "validation"; "test"; "manifest"]
           ("s3://" ++ bucket
            ++ "/cv-sagemaker-immersionday/outputs/pipelines/" ++ uuid4)
    /\ length (job_outputs (PreprocessingNotebook.run bucket role)) = 4%nat
    /\ Shape.output_paths (PreprocessingNotebook.run bucket role)
       = Shape.channel_paths ["train"; "valid"; "test"; "manifest"]
           ("s3://" ++ bucket ++ "/cv-sagemaker-immersionday/outputs").
Proof.
  eexists. split; [reflexivity |].
  repeat split; flat_strings.
Qed.


(** C6, as the code has it.  The standalone evaluation job and the
    evaluation step of each training type have the same job shape: command
    [python3], code [evaluation.py], inputs mounted at
    [/opt/ml/processing/input/test], [/opt/ml/processing/input/manifest] and
    [/opt/ml/processing/model], one output [evaluation] from
    [/opt/ml/processing/evaluation]; image, role and instance type agree
    too.  The standalone run passes ["--model-file", "model.tar.gz"] and an
    explicit destination, the pipeline step neither; the two further differ
    in base job name, instance count, session and input sources. *)
Theorem evaluation_job_shape :
  Forall (fun t =>
    exists j,
      Built.eval_job bucket role account region uuid4 t = Some j
      /\ Shape.job_shape j
         = {| Shape.shape_command := Some ["python3"];
              Shape.shape_code := "evaluation.py";
              Shape.shape_mounts :=
                ["/opt/ml/processing/input/test";
                 "/opt/ml/processing/input/manifest";
                 "/opt/ml/processing/model"];
              Shape.shape_outputs :=
                [(Some "evaluation", "/opt/ml/processing/evaluation")] |}
      /\ Shape.job_shape standalone_eval = Shape.job_shape j
      /\ proc_image_uri (job_processor standalone_eval)
         = proc_image_uri (job_processor j)
      /\ proc_role (job_processor standalone_eval)
         = proc_role (job_processor j)
      /\ proc_instance_type (job_processor standalone_eval)
         = proc_instance_type (job_processor j)
      /\ job_arguments standalone_eval
         = [Const "--model-file"; Const "model.tar.gz"]
      /\ map output_destination (job_outputs standalone_eval)
         = [Some ("s3://" ++ bucket
                  ++ "/cv-sagemaker-immersionday/outputs/evaluation")]
      /\ job_arguments j = []
      /\ map output_destination (job_outputs j) = [None]
      /\ proc_base_job_name (job_processor standalone_eval)
         = "cv-sagemaker-immersionday"
      /\ proc_base_job_name (job_processor j)
         = "cv-sagemaker-immersionday-evaluation"
      /\ proc_instance_count (job_processor standalone_eval) = Const 1
      /\ proc_instance_count (job_processor j)
         = Param (ParameterInteger "ProcessingInstanceCount" 1)
      /\ proc_sagemaker_session (job_processor standalone_eval) = None
      /\ proc_sagemaker_session (job_processor j) = Some PipelineSession
      /\ map input_source (job_inputs standalone_eval)
         = [Const ("s3://" ++ bucket
                   ++ "/cv-sagemaker-immersionday/outputs/test/");
            Const ("s3://" ++ bucket
                   ++ "/cv-sagemaker-immersionday/outputs/manifest");
            Const ("s3://" ++ bucket
                   ++ "/cv-sagemaker-immersionday/outputs/model/")]
      /\ map input_source (job_inputs j)
         = [Ref (ProcessingOutputS3Uri "BirdClassificationPreProcess"
                   "test_data");
            Ref (ProcessingOutputS3Uri "BirdClassificationPreProcess"
                   "manifest");
            Ref (S3ModelArtifacts ("BirdClassification" ++ t ++ "Train"))])
    PipelineNotebook.training_options.
Proof.
  repeat constructor; eexists; (split; [reflexivity |]);
    repeat split; flat_strings.
Qed.

Section Deploy.
Variable deploy : TensorFlowModel -> DeployCall -> Predictor.

(** C8.  There are two deployment options.  Either one builds the
    [TensorFlowModel] from
    [s3://<bucket>/cv-sagemaker-immersionday/outputs/model/model.tar.gz]
    with framework version 2.4.1; the serverless one deploys with
    [memory_size_in_mb=4096] and [max_concurrency=5], the real-time one with
    [initial_instance_count=1] on [ml.c5.4xlarge]; either one stores the
    endpoint name of the predictor that [deploy] returns in
    [tf_endpoint_name]. *)
Theorem two_deployment_options (o : DeploymentNotebook.DeploymentOption) :
  let c := DeploymentNotebook.deploy_cell bucket role deploy o in
  (o = DeploymentNotebook.ServerlessInference
   \/ o = DeploymentNotebook.RealTimeInference)
  /\ DeploymentNotebook.model c
     = {| model_data :=
            "s3://" ++ bucket
            ++ "/cv-sagemaker-immersionday/outputs/model/model.tar.gz";
          model_role := role;
          model_framework_version := "2.4.1" |}
  /\ DeploymentNotebook.call c
     = match o with
       | DeploymentNotebook.ServerlessInference =>
           {| serverless_inference_config :=
                Some {| memory_size_in_mb := 4096; max_concurrency := 5 |};
              initial_instance_count := None;
              deploy_instance_type := None |}
       | DeploymentNotebook.RealTimeInference =>
           {| serverless_inference_config := None;
              initial_instance_count := Some 1;
              deploy_instance_type := Some "ml.c5.4xlarge" |}
       end
  /\ DeploymentNotebook.predictor c
     = deploy (DeploymentNotebook.model c) (DeploymentNotebook.call c)
  /\ DeploymentNotebook.tf_endpoint_name c
     = endpoint_name (DeploymentNotebook.predictor c).
Proof.
  destruct o; cbv zeta; (split; [auto |]); repeat split.
Qed.

End Deploy.

(** C10.  The tuner maximizes [val_acc] over the two ranges [dropout]
    (continuous, 0.5 to 0.8) and [batch-size] (categorical, 8, 16, 32, 64,
    128, 256) with [max_jobs=2] and [max_parallel_jobs=2]; the best model is
    then copied to
    [s3://<bucket>/cv-sagemaker-immersionday/outputs/model/model.tar.gz],
    the path the deployment notebook loads. *)
Theorem tuning_job_and_best_model_copy :
  let t := TrainingNotebook.tuner role in
  objective_type t = "Maximize"
  /\ objective_metric_name t = "val_acc"
  /\ hyperparameter_ranges t
     = [("dropout", ContinuousParameter (5 # 10) (8 # 10));
        ("batch-size",
         CategoricalParameter
           [Int 8; Int 16; Int 32; Int 64; Int 128; Int 256])]
  /\ length (hyperparameter_ranges t) = 2%nat
  /\ max_jobs t = 2
  /\ max_parallel_jobs t = 2
  /\ TrainingNotebook.copy_best_model bucket best_model_uri
     = {| cp_recursive := false;
          cp_source := best_model_uri;
          cp_destination :=
            "s3://" ++ bucket
            ++ "/cv-sagemaker-immersionday/outputs/model/model.tar.gz" |}
  /\ cp_destination (TrainingNotebook.copy_best_model bucket best_model_uri)
     = DeploymentNotebook.bird_model_path bucket.
Proof.
  cbv zeta. repeat split; try reflexivity; flat_strings.
Qed.

End Standalone.

(** C3 as stated fails: the standalone run names its second channel
    [valid], not [validation]. *)
Lemma standalone_validation_channel_differs :
  Shape.output_paths (PreprocessingNotebook.run "my-bucket" "role")
  <> Shape.channel_paths ["train"; "validation"; "test"; "manifest"]
       (PreprocessingNotebook.output_s3_uri "my-bucket").
Proof. vm_compute. intro H. discriminate H. Qed.



(** C6 as stated fails: with arguments and destinations set aside the two
    configurations still differ, for one in the base job name. *)
Lemma evaluation_jobs_differ_elsewhere :
  option_map Shape.without_arguments_and_destinations
    (Built.eval_job "my-bucket" "role" "123456789012" "eu-west-1" "0f8fad5b"
       "Spot")
  <> Some (Shape.without_arguments_and_destinations
             (EvaluationNotebook.run "my-bucket" "role" "123456789012"
                "eu-west-1")).
Proof. vm_compute. intro H. discriminate H. Qed.

(** * Further properties: the loops for any options, the other cells *)

(** ** Dictionaries filled by loops *)

Lemma dict_get_image {V} (f : string -> V) (ks : list string) (k : string) :
  In k ks -> dict_get (PipelineLoops.image f ks) k = Some (f k).
Proof.
  induction ks as [|a ks IH]; [contradiction |].
  intros [-> | H]; cbn.
  - now rewrite String.eqb_refl.
  - destruct (String.eqb_spec a k) as [-> | _]; [reflexivity | exact (IH H)].
Qed.

Lemma dict_get_image_none {V} (f : string -> V) (ks : list string)
  (k : string) :
  ~ In k ks -> dict_get (PipelineLoops.image f ks) k = None.
Proof.
  induction ks as [|a ks IH]; [reflexivity |].
  intros H. cbn.
  destruct (String.eqb_spec a k) as [-> | _].
  - exfalso. apply H. now left.
  - apply IH. intro Hk. apply H. now right.
Qed.

Lemma existsb_eqb_In (k : string) (ks : list string) :
  existsb (String.eqb k) ks = true <-> In k ks.
Proof.
  rewrite existsb_exists. split.
  - intros [x [Hx E]]. apply String.eqb_eq in E. now subst.
  - intros H. exists k. split; [exact H | apply String.eqb_refl].
Qed.

Lemma dict_set_image {V} (f : string -> V) (ks : list string) (t : string) :
  dict_set (PipelineLoops.image f ks) t (f t)
  = PipelineLoops.image f (PipelineLoops.add_key ks t).
Proof.
  unfold PipelineLoops.add_key, PipelineLoops.image.
  induction ks as [|a ks IH]; [reflexivity |].
  cbn. rewrite (String.eqb_sym t a).
  destruct (String.eqb_spec a t) as [-> | _]; [reflexivity |].
  cbn. rewrite IH. destruct (existsb (String.eqb t) ks); reflexivity.
Qed.

Lemma in_add_key (ks : list string) (t k : string) :
  In k (PipelineLoops.add_key ks t) <-> In k ks \/ k = t.
Proof.
  unfold PipelineLoops.add_key.
  destruct (existsb (String.eqb t) ks) eqn:E.
  - apply existsb_eqb_In in E. split; [auto |].
    intros [H | ->]; assumption.
  - rewrite in_app_iff. cbn. intuition.
Qed.

Lemma in_keys_after (l ks : list string) (k : string) :
  In k (PipelineLoops.keys_after l ks) <-> In k ks \/ In k l.
Proof.
  revert ks. induction l as [|t l IH]; intros ks; cbn.
  - intuition.
  - rewrite IH, in_add_key. intuition.
Qed.

Lemma NoDup_add_key (ks : list string) (t : string) :
  NoDup ks -> NoDup (PipelineLoops.add_key ks t).
Proof.
  intros H. unfold PipelineLoops.add_key.
  destruct (existsb (String.eqb t) ks) eqn:E; [exact H |].
  apply NoDup_app; [exact H | repeat constructor; intros [] |].
  intros a Ha [<- | []].
  apply existsb_eqb_In in Ha. congruence.
Qed.

Lemma NoDup_keys_after (l ks : list string) :
  NoDup ks -> NoDup (PipelineLoops.keys_after l ks).
Proof.
  revert ks. induction l as [|t l IH]; intros ks H; cbn; [exact H |].
  apply IH, NoDup_add_key, H.
Qed.

(** A loop whose body, at every key that satisfies [P], moves the state
    from [st ks] to [st (add_key ks k)]. *)
Lemma for_each_keys {S} (body : S -> string -> option S)
  (st : list string -> S) (P : string -> Prop) :
  (forall ks t, P t ->
     body (st ks) t = Some (st (PipelineLoops.add_key ks t))) ->
  forall l ks, Forall P l ->
    for_each body l (st ks) = Some (st (PipelineLoops.keys_after l ks)).
Proof.
  intros Hbody l. induction l as [|t l IH]; intros ks HP; [reflexivity |].
  cbn. inversion HP as [|? ? Ht Hl]; subst.
  rewrite (Hbody ks t Ht). apply IH, Hl.
Qed.

(** A loop that stops at the first key its body fails on. *)
Lemma for_each_fails {S} (body : S -> string -> option S)
  (l : list string) (t : string) :
  In t l -> (forall s, body s t = None) ->
  forall s, for_each body l s = None.
Proof.
  intros Hin Hfail. induction l as [|a l IH]; [contradiction |].
  intros s. cbn. destruct Hin as [-> | Hin].
  - now rewrite Hfail.
  - destruct (body s a); [apply IH, Hin | reflexivity].
Qed.

Lemma append_all_image (f : string -> Step) (ks : list string)
  (acc : list Step) :
  PipelineNotebook.append_all (PipelineLoops.image f ks) acc
  = Some (acc ++ map f ks)%list.
Proof.
  unfold PipelineNotebook.append_all, dict_keys.
  assert (E : map fst (PipelineLoops.image f ks) = ks).
  { unfold PipelineLoops.image. rewrite map_map. cbn. apply map_id. }
  rewrite E.
  assert (G : forall l acc, incl l ks ->
              for_each (fun acc k =>
                 match dict_get (PipelineLoops.image f ks) k with
                 | Some v => Some (acc ++ [v])%list
                 | None => None
                 end) l acc = Some (acc ++ map f l)%list).
  { induction l as [|a l IH]; intros acc0 Hl; cbn.
    - now rewrite app_nil_r.
    - rewrite dict_get_image by (apply Hl; now left).
      rewrite IH by (intros x Hx; apply Hl; now right).
      now rewrite <- app_assoc. }
  apply G, incl_refl.
Qed.

Section Loops.
Variables (bucket role account region uuid4 : string).
Variable arguments_s3_uri : Step -> nat -> string.

Local Abbreviation train_step_of := (PipelineLoops.train_step_of bucket role uuid4).
Local Abbreviation make_estimator := (PipelineNotebook.make_estimator bucket role uuid4).
Local Abbreviation eval_step_of := (PipelineLoops.eval_step_of role account region).
Local Abbreviation register_step_of :=
  (PipelineLoops.register_step_of bucket role account region uuid4
     arguments_s3_uri).
Local Abbreviation condition_step_of :=
  (PipelineLoops.condition_step_of bucket role account region uuid4
     arguments_s3_uri).

Local Abbreviation trained := (PipelineLoops.trained bucket role uuid4).
Local Abbreviation evaluated := (PipelineLoops.evaluated role account region).

Lemma training_body_keys (ks : list string) (t : string) :
  PipelineNotebook.training_body bucket role uuid4 (trained ks) t
  = Some (trained (PipelineLoops.add_key ks t)).
Proof.
  unfold PipelineLoops.trained. rewrite <- !dict_set_image. reflexivity.
Qed.

Lemma eval_body_keys (K ks : list string) (t : string) :
  In t K ->
  PipelineNotebook.eval_body bucket role account region uuid4 (trained K)
    (evaluated ks) t
  = Some (evaluated (PipelineLoops.add_key ks t)).
Proof.
  intros Ht. unfold PipelineNotebook.eval_body, PipelineLoops.evaluated.
  cbn [PipelineNotebook.models PipelineLoops.trained].
  rewrite (dict_get_image _ _ _ Ht).
  rewrite <- !dict_set_image. reflexivity.
Qed.

Lemma register_body_keys (K ks : list string) (t : string) :
  In t K ->
  PipelineNotebook.register_body arguments_s3_uri (trained K) (evaluated K)
    (PipelineLoops.image register_step_of ks) t
  = Some (PipelineLoops.image register_step_of (PipelineLoops.add_key ks t)).
Proof.
  intros Ht. unfold PipelineNotebook.register_body.
  cbn [PipelineNotebook.models PipelineNotebook.training_estimators
       PipelineNotebook.eval_steps PipelineLoops.trained
       PipelineLoops.evaluated].
  rewrite !(dict_get_image _ _ _ Ht).
  rewrite <- !dict_set_image. reflexivity.
Qed.

Lemma condition_body_keys (K ks : list string) (t : string) :
  In t K ->
  PipelineNotebook.condition_body (evaluated K)
    (PipelineLoops.image register_step_of K)
    (PipelineLoops.image condition_step_of ks) t
  = Some (PipelineLoops.image condition_step_of (PipelineLoops.add_key ks t)).
Proof.
  intros Ht. unfold PipelineNotebook.condition_body.
  cbn [PipelineNotebook.eval_reports PipelineNotebook.eval_steps
       PipelineLoops.evaluated].
  rewrite !(dict_get_image _ _ _ Ht).
  rewrite <- !dict_set_image. reflexivity.
Qed.

Variable options : list string.
Local Abbreviation K := (PipelineLoops.distinct_options options).

Lemma options_in_keys : Forall (fun t => In t K) options.
Proof.
  apply Forall_forall. intros t Ht.
  apply in_keys_after. now right.
Qed.

Lemma training_cell_keys :
  PipelineLoops.training_cell bucket role uuid4 options = Some (trained K).
Proof.
  unfold PipelineLoops.training_cell.
  apply (for_each_keys _ trained (fun _ => True)) with (ks := []).
  - intros ks t _. apply training_body_keys.
  - apply Forall_forall. trivial.
Qed.

Lemma eval_cell_keys :
  PipelineLoops.eval_cell bucket role account region uuid4 options
  = Some (evaluated K).
Proof.
  unfold PipelineLoops.eval_cell. rewrite training_cell_keys.
  apply (for_each_keys _ evaluated (fun t => In t K)) with (ks := []).
  - intros ks t Ht. apply eval_body_keys, Ht.
  - apply options_in_keys.
Qed.

Lemma register_cell_keys :
  PipelineLoops.register_cell bucket role account region uuid4
    arguments_s3_uri options
  = Some (PipelineLoops.image register_step_of K).
Proof.
  unfold PipelineLoops.register_cell.
  rewrite training_cell_keys, eval_cell_keys.
  apply (for_each_keys _ (PipelineLoops.image register_step_of)
           (fun t => In t K)) with (ks := []).
  - intros ks t Ht. apply register_body_keys, Ht.
  - apply options_in_keys.
Qed.

Lemma condition_cell_keys :
  PipelineLoops.condition_cell bucket role account region uuid4
    arguments_s3_uri options
  = Some (PipelineLoops.image condition_step_of K).
Proof.
  unfold PipelineLoops.condition_cell.
  rewrite eval_cell_keys, register_cell_keys.
  apply (for_each_keys _ (PipelineLoops.image condition_step_of)
           (fun t => In t K)) with (ks := []).
  - intros ks t Ht. apply condition_body_keys, Ht.
  - apply options_in_keys.
Qed.

Lemma steps_keys :
  PipelineLoops.steps bucket role account region uuid4
    arguments_s3_uri options
  = Some (PipelineNotebook.step_process bucket role uuid4
          :: map train_step_of K ++ map eval_step_of K
             ++ map condition_step_of K)%list.
Proof.
  unfold PipelineLoops.steps.
  rewrite training_cell_keys, eval_cell_keys, condition_cell_keys.
  cbn [PipelineNotebook.training_steps PipelineNotebook.eval_steps
       PipelineLoops.trained PipelineLoops.evaluated].
  rewrite !append_all_image. cbn [app]. now rewrite <- !app_assoc.
Qed.

End Loops.

(** ** Step names *)

Lemma list_ascii_of_append (a b : string) :
  list_ascii_of_string (a ++ b)
  = (list_ascii_of_string a ++ list_ascii_of_string b)%list.
Proof. induction a as [|c a IH]; cbn; [reflexivity | now rewrite IH]. Qed.

Lemma list_ascii_inj (a b : string) :
  list_ascii_of_string a = list_ascii_of_string b -> a = b.
Proof.
  intros H. rewrite <- (string_of_list_ascii_of_string a),
    <- (string_of_list_ascii_of_string b). now rewrite H.
Qed.

(** A name [pre ++ t ++ post] determines [t]. *)
Lemma wrapped_name_inj (pre post t t' : string) :
  pre ++ t ++ post = pre ++ t' ++ post -> t = t'.
Proof.
  intros H. apply (f_equal list_ascii_of_string) in H.
  rewrite !list_ascii_of_append in H.
  apply app_inv_head, app_inv_tail in H. now apply list_ascii_inj.
Qed.

(** Names that end differently differ: compare the reversed endings. *)
Ltac endings_differ H :=
  apply (f_equal (fun s => rev (list_ascii_of_string s))) in H;
  cbv beta in H; rewrite ?list_ascii_of_append in H;
  rewrite ?rev_app_distr in H; cbn in H; discriminate H.

Lemma names_of_different_kinds (t t' : string) :
  PipelineLoops.train_name t <> PipelineLoops.eval_name t'
  /\ PipelineLoops.train_name t <> PipelineLoops.condition_name t'
  /\ PipelineLoops.eval_name t <> PipelineLoops.condition_name t'
  /\ "BirdClassificationPreProcess" <> PipelineLoops.train_name t
  /\ "BirdClassificationPreProcess" <> PipelineLoops.eval_name t
  /\ "BirdClassificationPreProcess" <> PipelineLoops.condition_name t.
Proof.
  unfold PipelineLoops.train_name, PipelineLoops.eval_name,
    PipelineLoops.condition_name.
  repeat split; intro H; endings_differ H.
Qed.

Lemma NoDup_map_inj {A B} (f : A -> B) (l : list A) :
  (forall x y, f x = f y -> x = y) -> NoDup l -> NoDup (map f l).
Proof.
  intros Hf. apply NoDup_map_NoDup_ForallPairs.
  intros x y _ _. apply Hf.
Qed.

Lemma step_names_distinct (ks : list string) :
  NoDup ks ->
  NoDup ("BirdClassificationPreProcess"
         :: map PipelineLoops.train_name ks
            ++ map PipelineLoops.eval_name ks
            ++ map PipelineLoops.condition_name ks)%list.
Proof.
  intros Hks.
  assert (Ht : NoDup (map PipelineLoops.train_name ks))
    by (apply NoDup_map_inj; [apply wrapped_name_inj | exact Hks]).
  assert (He : NoDup (map PipelineLoops.eval_name ks))
    by (apply NoDup_map_inj; [apply wrapped_name_inj | exact Hks]).
  assert (Hc : NoDup (map PipelineLoops.condition_name ks))
    by (apply NoDup_map_inj; [apply wrapped_name_inj | exact Hks]).
  constructor.
  - rewrite !in_app_iff, !in_map_iff.
    intros [[t [E _]] | [[t [E _]] | [t [E _]]]];
      symmetry in E; revert E; apply (names_of_different_kinds t t).
  - apply NoDup_app; [exact Ht | |].
    + apply NoDup_app; [exact He | exact Hc |].
      intros a [t [<- _]]%in_map_iff [t' [E _]]%in_map_iff.
      symmetry in E. revert E. apply (names_of_different_kinds t t').
    + intros a [t [<- _]]%in_map_iff.
      rewrite in_app_iff, !in_map_iff.
      intros [[t' [E _]] | [t' [E _]]];
        symmetry in E; revert E; apply (names_of_different_kinds t t').
Qed.

(** ** Orders *)

Lemma distinct_NoDup (l : list string) : NoDup l -> distinct l = true.
Proof.
  induction 1 as [|x l Hx _ IH]; [reflexivity |].
  cbn. rewrite IH, andb_true_r. apply negb_true_iff.
  destruct (existsb (String.eqb x) l) eqn:E; [| reflexivity].
  apply existsb_eqb_In in E. contradiction.
Qed.

Lemma precedes_app (a b : string) (l1 l2 : list string) :
  In a l1 -> In b l2 -> precedes a b (l1 ++ l2) = true.
Proof.
  intros Ha Hb. induction l1 as [|x l1 IH]; [contradiction |].
  cbn. destruct (String.eqb_spec x a) as [-> | Hx].
  - apply existsb_eqb_In, in_or_app. now right.
  - destruct Ha as [-> | Ha]; [contradiction | exact (IH Ha)].
Qed.

Lemma estimator_is_constant (bucket role uuid4 t : string) :
  instance_type (PipelineNotebook.make_estimator bucket role uuid4 t)
  = Const "ml.c5.4xlarge"
  /\ instance_count (PipelineNotebook.make_estimator bucket role uuid4 t)
     = Const 1.
Proof.
  unfold PipelineNotebook.make_estimator.
  destruct (String.eqb (lower t) "spot"); split; reflexivity.
Qed.

Section LoopFacts.
Variables (bucket role account region uuid4 : string).
Variable arguments_s3_uri : Step -> nat -> string.
Variable options : list string.

Local Abbreviation K := (PipelineLoops.distinct_options options).
Local Abbreviation the_pipeline :=
  (PipelineLoops.pipeline bucket role account region uuid4
    arguments_s3_uri options).

Lemma pipeline_keys :
  the_pipeline
  = Some {| pipeline_name := PipelineNotebook.pipeline_name;
            pipeline_parameters :=
              [PipelineNotebook.processing_instance_count;
               PipelineNotebook.input_data bucket;
               PipelineNotebook.input_annotation;
               PipelineNotebook.class_selection];
            pipeline_steps :=
              (PipelineNotebook.step_process bucket role uuid4
               :: map (PipelineLoops.train_step_of bucket role uuid4) K
                  ++ map (PipelineLoops.eval_step_of role account region) K
                  ++ map (PipelineLoops.condition_step_of bucket role account region
                          uuid4 arguments_s3_uri)
                       K)%list |}.
Proof.
  unfold PipelineLoops.pipeline. now rewrite steps_keys.
Qed.

Lemma pipeline_step_names (p : Pipeline) :
  the_pipeline = Some p ->
  map step_name (pipeline_steps p)
  = ("BirdClassificationPreProcess"
     :: map PipelineLoops.train_name K
        ++ map PipelineLoops.eval_name K
        ++ map PipelineLoops.condition_name K)%list.
Proof.
  rewrite pipeline_keys. intros [= <-].
  cbn [pipeline_steps map]. rewrite !map_app, !map_map. reflexivity.
Qed.

(** X1.  Whatever list [training_options] holds, no lookup of the loops
    raises [KeyError] and the pipeline has the preprocessing step followed by
    one training step, one evaluation step and one condition step for every
    distinct option, in order of first occurrence; an option listed twice
    gets one step of each kind.  At the notebook's own options this is the
    notebook's pipeline. *)
Theorem loops_build_one_step_per_distinct_option :
  exists p,
    the_pipeline = Some p
    /\ map step_name (pipeline_steps p)
       = ("BirdClassificationPreProcess"
          :: map (fun t => ("BirdClassification" ++ t ++ "Train")%string) K
             ++ map (fun t => ("BirdClassification" ++ t ++ "Eval")%string) K
             ++ map (fun t => ("BirdClassification" ++ t ++ "Condition")%string) K)%list
    /\ NoDup K
    /\ (forall t, In t K <-> In t options)
    /\ length (pipeline_steps p) = (1 + 3 * length K)%nat
    /\ PipelineLoops.pipeline bucket role account region uuid4
         arguments_s3_uri PipelineNotebook.training_options
       = PipelineNotebook.pipeline bucket role account region uuid4
           arguments_s3_uri.
Proof.
  eexists. split; [apply pipeline_keys |].
  split; [apply pipeline_step_names, pipeline_keys |].
  split; [apply NoDup_keys_after; constructor |].
  split.
  - intros t. unfold PipelineLoops.distinct_options.
    rewrite in_keys_after. cbn. tauto.
  - split; [| reflexivity].
    cbn [pipeline_steps length]. rewrite !length_app, !length_map. lia.
Qed.

(** X2.  Whatever the training options are, no two steps of the pipeline
    have the same name. *)
Theorem step_names_are_unique :
  exists p,
    the_pipeline = Some p /\ NoDup (map step_name (pipeline_steps p)).
Proof.
  eexists. split; [apply pipeline_keys |].
  rewrite (pipeline_step_names _ pipeline_keys).
  apply step_names_distinct, NoDup_keys_after. constructor.
Qed.

Lemma train_step_dependencies (t : string) :
  depends_on (PipelineLoops.train_step_of bucket role uuid4 t)
  = ["BirdClassificationPreProcess"; "BirdClassificationPreProcess";
     "BirdClassificationPreProcess"].
Proof.
  unfold PipelineLoops.train_step_of, depends_on.
  destruct (estimator_is_constant bucket role uuid4 t) as [-> ->].
  reflexivity.
Qed.

Lemma train_step_params (t : string) :
  step_params (PipelineLoops.train_step_of bucket role uuid4 t) = [].
Proof.
  unfold PipelineLoops.train_step_of, step_params, estimator_params.
  destruct (estimator_is_constant bucket role uuid4 t) as [-> ->].
  reflexivity.
Qed.

Lemma condition_step_params (t : string) :
  step_params (PipelineLoops.condition_step_of bucket role account region uuid4
       arguments_s3_uri t) = [].
Proof.
  unfold PipelineLoops.condition_step_of, PipelineLoops.register_step_of.
  cbn [step_params]. unfold estimator_params.
  destruct (estimator_is_constant bucket role uuid4 t) as [-> ->].
  reflexivity.
Qed.

(** X3.  Whatever the training options are, the order in which the notebook
    lists the steps completes every step once and after the steps it
    depends on: the declared dependencies have no cycle. *)
Theorem listed_order_is_an_execution_order :
  exists p,
    the_pipeline = Some p
    /\ execution_order p (map step_name (pipeline_steps p)) = true.
Proof.
  eexists. split; [apply pipeline_keys |].
  rewrite (pipeline_step_names _ pipeline_keys).
  unfold execution_order. apply andb_true_intro. split.
  { apply distinct_NoDup, step_names_distinct, NoDup_keys_after.
    constructor. }
  apply forallb_forall. intros s Hs. cbn [pipeline_steps] in Hs.
  set (T := map PipelineLoops.train_name K).
  set (E := map PipelineLoops.eval_name K).
  set (C := map PipelineLoops.condition_name K).
  assert (HT : forall t, In t K -> In (PipelineLoops.train_name t) T)
    by (intros; now apply in_map).
  assert (HE : forall t, In t K -> In (PipelineLoops.eval_name t) E)
    by (intros; now apply in_map).
  assert (HC : forall t, In t K -> In (PipelineLoops.condition_name t) C)
    by (intros; now apply in_map).
  assert (Hpre : forall n, In n (T ++ E ++ C)%list ->
            precedes "BirdClassificationPreProcess" n
              ("BirdClassificationPreProcess" :: T ++ E ++ C)%list = true).
  { intros n Hn. cbn. now apply existsb_eqb_In. }
  destruct Hs as [<- | Hs]; [reflexivity |].
  rewrite !in_app_iff, !in_map_iff in Hs.
  destruct Hs as [[t [<- Ht]] | [[t [<- Ht]] | [t [<- Ht]]]].
  - rewrite train_step_dependencies.
    assert (Hn : In (PipelineLoops.train_name t) (T ++ E ++ C)%list)
      by (apply in_or_app; left; auto).
    apply andb_true_intro. split.
    + apply existsb_eqb_In. now right.
    + cbn [forallb step_name PipelineLoops.train_step_of].
      now rewrite (Hpre _ Hn).
  - assert (Hn : In (PipelineLoops.eval_name t) (T ++ E ++ C)%list)
      by (apply in_or_app; right; apply in_or_app; left; auto).
    apply andb_true_intro. split.
    + apply existsb_eqb_In. now right.
    + cbn [forallb step_name PipelineLoops.eval_step_of depends_on
             flat_map arg_steps app proc_instance_type proc_instance_count
             input_source PipelineLoops.model_of property_step].
      rewrite (Hpre _ Hn). cbn [andb].
      change ("BirdClassificationPreProcess" :: T ++ E ++ C)%list
        with (("BirdClassificationPreProcess" :: T) ++ (E ++ C))%list.
      rewrite precedes_app; [reflexivity | right; auto |].
      apply in_or_app. left. auto.
  - assert (Hn : In (PipelineLoops.condition_name t) (T ++ E ++ C)%list)
      by (apply in_or_app; right; apply in_or_app; right; auto).
    apply andb_true_intro. split.
    + apply existsb_eqb_In. now right.
    + cbn [forallb step_name PipelineLoops.condition_step_of depends_on
             map jg_step_name].
      replace ("BirdClassificationPreProcess" :: T ++ E ++ C)%list
        with (("BirdClassificationPreProcess" :: T ++ E) ++ C)%list
        by (cbn [app]; now rewrite <- app_assoc).
      rewrite precedes_app; [reflexivity | | auto].
      right. apply in_or_app. right. auto.
Qed.

(** X4.  Whatever the training options are, every step but the condition
    steps carries the shared cache configuration, and the steps refer to no
    pipeline parameter besides the four the pipeline declares. *)
Theorem any_options_keep_cache_and_parameters :
  exists p,
    the_pipeline = Some p
    /\ Forall (fun s =>
         step_cache_config s
         = if is_condition_step s then None
           else Some PipelineNotebook.cache_config)
       (pipeline_steps p)
    /\ incl (flat_map step_params (pipeline_steps p)) (pipeline_parameters p).
Proof.
  eexists. split; [apply pipeline_keys |]. cbn [pipeline_steps]. split.
  - constructor; [reflexivity |].
    rewrite !Forall_app, !Forall_map.
    repeat split; apply Forall_forall; reflexivity.
  - intros x Hx. apply in_flat_map in Hx as [s [Hs Hx]].
    destruct Hs as [<- | Hs].
    + cbn in Hx |- *.
      repeat (destruct Hx as [Hx | Hx]; [subst x; auto 10 |]).
      contradiction.
    + rewrite !in_app_iff, !in_map_iff in Hs.
      destruct Hs as [[t [<- _]] | [[t [<- _]] | [t [<- _]]]].
      * rewrite train_step_params in Hx. contradiction.
      * cbn in Hx |- *. destruct Hx as [<- | Hx]; [auto | contradiction].
      * rewrite condition_step_params in Hx. contradiction.
Qed.

(** X5.  For every training option [t] the steps are wired to each other
    and to no other option: the evaluation step of [t] mounts the artifact of
    the training step of [t]; the condition step of [t] tests the report of
    the evaluation step of [t] and gates the registration of [t], which
    registers the estimator and the artifact of the training step of [t];
    its metrics file is [evaluation.json] under the output location that
    the arguments of the evaluation step of [t] hold when the cell runs. *)
Theorem every_option_is_wired_to_its_own_steps (t : string) :
  In t options ->
  exists p e ev,
    the_pipeline = Some p
    /\ e = PipelineNotebook.make_estimator bucket role uuid4 t
    /\ (exists ins c,
          In (TrainingStep ("BirdClassification" ++ t ++ "Train") e ins c)
             (pipeline_steps p))
    /\ (exists pr code args outs pfs c,
          ev = ProcessingStep ("BirdClassification" ++ t ++ "Eval")
                 pr code args
                 [{| input_source :=
                       Ref (ProcessingOutputS3Uri
                              "BirdClassificationPreProcess" "test_data");
                     input_destination := "/opt/ml/processing/input/test" |};
                  {| input_source :=
                       Ref (ProcessingOutputS3Uri
                              "BirdClassificationPreProcess" "manifest");
                     input_destination :=
                       "/opt/ml/processing/input/manifest" |};
                  {| input_source :=
                       Ref (S3ModelArtifacts
                              ("BirdClassification" ++ t ++ "Train"));
                     input_destination := "/opt/ml/processing/model" |}]
                 outs pfs c)
    /\ In ev (pipeline_steps p)
    /\ In (ConditionStep ("BirdClassification" ++ t ++ "Condition")
             [ConditionGreaterThanOrEqualTo
                {| jg_step_name := "BirdClassification" ++ t ++ "Eval";
                   jg_property_file :=
                     {| pf_name := "Evaluation" ++ t ++ "Report";
                        pf_output_name := "evaluation";
                        pf_path := "evaluation.json" |};
                   jg_json_path :=
                     "multiclass_classification_metrics.accuracy.value" |}
                0.7%float]
             [RegisterModel ("Register" ++ t ++ "Model") e
                (Ref (S3ModelArtifacts
                        ("BirdClassification" ++ t ++ "Train")))
                ["application/x-image"] ["application/json"]
                ["ml.t2.medium"; "ml.m5.large"] ["ml.m5.large"]
                "cv-sagemaker-immersionday-model-group"
                {| model_statistics :=
                     {| s3_uri :=
                          Const (arguments_s3_uri ev 0
                                 ++ "/evaluation.json");
                        content_type := "application/json" |} |}]
             [])
         (pipeline_steps p).
Proof.
  intros Ht.
  assert (HK : In t K) by (apply in_keys_after; now right).
  exists (Build_Pipeline PipelineNotebook.pipeline_name
            [PipelineNotebook.processing_instance_count;
             PipelineNotebook.input_data bucket;
             PipelineNotebook.input_annotation;
             PipelineNotebook.class_selection]
            (PipelineNotebook.step_process bucket role uuid4
             :: map (PipelineLoops.train_step_of bucket role uuid4) K
                ++ map (PipelineLoops.eval_step_of role account region) K
                ++ map (PipelineLoops.condition_step_of bucket role account
                          region uuid4 arguments_s3_uri) K)%list).
  exists (PipelineNotebook.make_estimator bucket role uuid4 t).
  exists (PipelineLoops.eval_step_of role account region t).
  split; [apply pipeline_keys |]. split; [reflexivity |].
  cbn [pipeline_steps]. split; [| split; [| split]].
  - do 2 eexists. right. apply in_or_app. left.
    apply (in_map (PipelineLoops.train_step_of bucket role uuid4) _ _ HK).
  - do 6 eexists. reflexivity.
  - right. apply in_or_app. right. apply in_or_app. left.
    apply (in_map (PipelineLoops.eval_step_of role account region) _ _ HK).
  - right. apply in_or_app. right. apply in_or_app. right.
    apply (in_map (PipelineLoops.condition_step_of bucket role account
                     region uuid4 arguments_s3_uri) _ _ HK).
Qed.

End LoopFacts.

(** X6.  The evaluation loop raises [KeyError] when [training_options]
    names an option that the training loop has not run for: [models[t]] has
    no such key. *)
Theorem evaluation_of_untrained_option_fails
  (bucket role account region uuid4 : string)
  (options options' : list string) (t : string)
  (tr : PipelineNotebook.TrainingCell) (c : PipelineNotebook.EvalCell) :
  PipelineLoops.training_cell bucket role uuid4 options = Some tr ->
  In t options' -> ~ In t options ->
  for_each (PipelineNotebook.eval_body bucket role account region uuid4 tr)
    options' c = None.
Proof.
  intros Htr Hin Hnot. rewrite training_cell_keys in Htr.
  injection Htr as <-.
  apply for_each_fails with (t := t); [exact Hin |].
  intros s. unfold PipelineNotebook.eval_body.
  cbn [PipelineNotebook.models PipelineLoops.trained].
  rewrite dict_get_image_none; [reflexivity |].
  intros H. apply in_keys_after in H as [[] | H]. contradiction.
Qed.

(** X7.  For any training type [t], the estimator has the spot options
    exactly when [t.lower() == 'spot'] and none of them otherwise; its tag
    carries [t] as written; [max_run] and [max_wait] are set together with
    [max_run <= max_wait]; and every other constructor argument is the same
    for all training types. *)
Theorem estimator_follows_the_training_type
  (bucket role uuid4 t t' : string) :
  let e := PipelineNotebook.make_estimator bucket role uuid4 t in
  Shape.spot_options e
  = (if String.eqb (lower t) "spot"
     then (Some true, Some 36000, Some 43200,
           Some ("s3://" ++ bucket
                 ++ "/cv-sagemaker-immersionday/outputs/pipelines/" ++ uuid4
                 ++ "/outputcheckpoints"))
     else (None, None, None, None))
  /\ tags e = Some [[("Key", "TrainingType"); ("Value", t)]]
  /\ Shape.common_arguments e
     = Shape.common_arguments
         (PipelineNotebook.make_estimator bucket role uuid4 t')
  /\ match max_run e, max_wait e with
     | Some run, Some wait => run <= wait
     | None, None => True
     | _, _ => False
     end.
Proof.
  cbv zeta. unfold PipelineNotebook.make_estimator.
  destruct (String.eqb (lower t) "spot");
    destruct (String.eqb (lower t') "spot");
    (split; [flat_strings |]); (split; [reflexivity |]);
    (split; [reflexivity |]); cbn; trivial; lia.
Qed.

(** X9.  After either deployment cell, the predictor cell binds the
    predictor to the placeholder name it assigns, not to the name of the
    endpoint that was deployed; it sends [application/x-image] and accepts
    [application/json], the content and response types under which the
    pipeline registers the model of any training type. *)
Theorem inference_predictor_is_bound_to_the_placeholder
  (bucket role account region uuid4 : string)
  (arguments_s3_uri : Step -> nat -> string)
  (deploy : TensorFlowModel -> DeployCall -> Predictor)
  (o : DeploymentNotebook.DeploymentOption) (t : string) :
  let deployed := DeploymentNotebook.deploy_cell bucket role deploy o in
  let c := DeploymentInference.predictor_cell deployed in
  DeploymentInference.tf_endpoint_name c
  = "<SAGEMAKER DEPLOYED ENDPOINT NAME>"
  /\ DeploymentInference.predictor_endpoint_name
       (DeploymentInference.predictor c)
     = DeploymentInference.tf_endpoint_name c
  /\ (DeploymentNotebook.tf_endpoint_name deployed
      <> "<SAGEMAKER DEPLOYED ENDPOINT NAME>" ->
      DeploymentInference.predictor_endpoint_name
        (DeploymentInference.predictor c)
      <> endpoint_name (deploy (DeploymentNotebook.model deployed)
                          (DeploymentNotebook.call deployed)))
  /\ exists e md ct rt ii ti g mm,
       PipelineLoops.register_step_of bucket role account region uuid4
         arguments_s3_uri t
       = RegisterModel ("Register" ++ t ++ "Model") e md ct rt ii ti g mm
       /\ DeploymentInference.serializer (DeploymentInference.predictor c)
          = DeploymentInference.IdentitySerializer "application/x-image"
       /\ In "application/x-image" ct
       /\ DeploymentInference.deserializer (DeploymentInference.predictor c)
          = DeploymentInference.JSONDeserializer "application/json"
       /\ In "application/json" rt.
Proof.
  cbv zeta. split; [reflexivity |]. split; [reflexivity |]. split.
  - destruct o; cbn; intros H E; apply H; now rewrite <- E.
  - do 8 eexists. split; [reflexivity |].
    repeat split; cbn; auto.
Qed.

(** X10.  An execution that overrides none of [ClassSelection],
    [AnnotationFileName] and [InputDataUrl] runs the preprocessing step with
    the arguments and the input of the standalone preprocessing run. *)
Theorem default_execution_preprocesses_like_the_notebook
  (bucket role uuid4 : string) (overrides : dict value) :
  dict_get overrides "ClassSelection" = None ->
  dict_get overrides "AnnotationFileName" = None ->
  dict_get overrides "InputDataUrl" = None ->
  exists j,
    step_job (PipelineNotebook.step_process bucket role uuid4) = Some j
    /\ map (resolve_string overrides) (job_arguments j)
       = map (resolve_string [])
           (job_arguments (PreprocessingNotebook.run bucket role))
    /\ map (resolve_string overrides) (job_arguments j)
       = [Some "--classes"; Some "13, 17, 35, 36, 47, 68, 73, 87";
          Some "--input-data"; Some "classes.txt"]
    /\ map (fun i => (resolve_string overrides (input_source i),
                      input_destination i)) (job_inputs j)
       = map (fun i => (resolve_string [] (input_source i),
                        input_destination i))
           (job_inputs (PreprocessingNotebook.run bucket role)).
Proof.
  intros Hc Ha Hi. eexists. split; [reflexivity |].
  cbn. rewrite Hc, Ha, Hi. repeat split.
Qed.

Lemma default_execution_preprocesses_like_the_notebook_witness :
  exists j,
    step_job (PipelineNotebook.step_process "my-bucket" "role" "0f8fad5b")
    = Some j
    /\ map (resolve_string [("ProcessingInstanceCount", Int 2)])
         (job_arguments j)
       = map (resolve_string [])
           (job_arguments (PreprocessingNotebook.run "my-bucket" "role")).
Proof.
  destruct (default_execution_preprocesses_like_the_notebook
              "my-bucket" "role" "0f8fad5b"
              [("ProcessingInstanceCount", Int 2)]
              eq_refl eq_refl eq_refl) as [j [Hj [H _]]].
  exists j. split; [exact Hj | exact H].
Defined.

(** X11.  The review cell of the evaluation notebook loads
    [evaluation.json] (and the confusion matrix) from inside the destination
    of the evaluation job.  On every report in which the pipeline's condition
    finds the accuracy, the cell's lookup of
    [multiclass_classification_metrics] succeeds and holds that accuracy
    under [accuracy.value]; on a report where the cell raises [KeyError] the
    condition finds nothing either. *)
Theorem review_reads_what_the_condition_reads (bucket : string)
  (doc : json) :
  Workshop.s3_object bucket EvaluationNotebook.eval_matrix_key
  = EvaluationNotebook.s3_evaluation_output bucket ++ "/evaluation.json"
  /\ EvaluationNotebook.cf_matrix_file bucket
     = EvaluationNotebook.s3_evaluation_output bucket
       ++ "/confusion_matrix.png"
  /\ (forall acc,
        json_lookup
          (split_on "." "multiclass_classification_metrics.accuracy.value")
          doc = Some acc ->
        exists metrics,
          EvaluationReview.review doc = Some metrics
          /\ json_lookup ["accuracy"; "value"] metrics = Some acc)
  /\ (EvaluationReview.review doc = None ->
      json_lookup
        (split_on "." "multiclass_classification_metrics.accuracy.value")
        doc = None).
Proof.
  split; [flat_strings |]. split; [flat_strings |].
  change (split_on "." "multiclass_classification_metrics.accuracy.value")
    with ["multiclass_classification_metrics"; "accuracy"; "value"].
  unfold EvaluationReview.review. split.
  - intros acc H. destruct doc as [q | s | members]; try discriminate H.
    cbn [json_lookup] in H.
    destruct (dict_get members "multiclass_classification_metrics")
      as [metrics |]; [| discriminate H].
    exists metrics. split; [reflexivity | exact H].
  - intros H. destruct doc as [q | s | members]; try reflexivity.
    cbn [json_lookup]. now rewrite H.
Qed.

(** X12.  The tuner's objective metric is one of the metrics that its
    metric definitions extract, which are those of its estimator and of the
    pipeline's estimators; no tuned hyperparameter is also a fixed
    hyperparameter of the estimator; every range is non-empty; and
    [1 <= max_parallel_jobs <= max_jobs]. *)
Theorem tuner_is_consistent (role : string) :
  let t := TrainingNotebook.tuner role in
  (exists regex,
     In [("Name", objective_metric_name t); ("Regex", regex)]
        (tuner_metric_definitions t))
  /\ tuner_metric_definitions t = metric_definitions (tuner_estimator t)
  /\ tuner_metric_definitions t = PipelineNotebook.metric_definitions
  /\ Forall (fun kv =>
       dict_get (hyperparameters (tuner_estimator t)) (fst kv) = None
       /\ match snd kv with
          | ContinuousParameter lo hi => (lo <= hi)%Q
          | CategoricalParameter vs => vs <> []
          | IntegerParameter lo hi => lo <= hi
          end) (hyperparameter_ranges t)
  /\ 1 <= max_parallel_jobs t <= max_jobs t.
Proof.
  cbv zeta. split; [eexists; in_list |].
  split; [reflexivity |]. split; [reflexivity |]. split.
  - repeat constructor; cbn; discriminate.
  - cbn. lia.
Qed.

(** X13.  The classes whose names the deployment notebook attaches to
    predictions, written with [", "] between them, are the class selection
    of the preprocessing notebook and the default of the pipeline parameter
    [ClassSelection]; the class file it reads is the annotation file inside
    the uploaded raw data. *)
Theorem inference_classes_are_the_selected_classes (bucket : string) :
  let written :=
    DeploymentInference.join ", "
      (map PreprocessingReview.str_int DeploymentInference.classes) in
  written = PreprocessingNotebook.class_selection
  /\ PipelineNotebook.class_selection = ParameterString "ClassSelection" written
  /\ DeploymentNotebook.classes_file bucket
     = PreprocessingNotebook.s3_raw_data bucket ++ "/"
       ++ PreprocessingNotebook.input_annotation.
Proof.
  cbv zeta. split; [vm_compute; reflexivity |].
  split; [vm_compute; reflexivity |]. flat_strings.
Qed.

(** ** The properties at concrete inputs *)

Lemma evaluation_of_untrained_option_fails_witness :
  match PipelineLoops.training_cell "my-bucket" "role" "0f8fad5b"
          ["Spot"; "OnDemand"] with
  | Some tr =>
      for_each (PipelineNotebook.eval_body "my-bucket" "role" "123456789012"
                  "eu-west-1" "0f8fad5b" tr)
        ["Spot"; "Reserved"]
        {| PipelineNotebook.eval_steps := [];
           PipelineNotebook.eval_reports := [] |} = None
  | None => False
  end.
Proof.
  destruct (PipelineLoops.training_cell "my-bucket" "role" "0f8fad5b"
              ["Spot"; "OnDemand"]) as [tr |] eqn:E.
  - apply (evaluation_of_untrained_option_fails "my-bucket" "role"
             "123456789012" "eu-west-1" "0f8fad5b" ["Spot"; "OnDemand"]
             ["Spot"; "Reserved"] "Reserved" tr _ E).
    + cbn. auto.
    + cbn. intros [H | [H | []]]; discriminate H.
  - vm_compute in E. discriminate E.
Defined.

Lemma every_option_is_wired_to_its_own_steps_witness :
  exists p e,
    PipelineLoops.pipeline "my-bucket" "role" "123456789012" "eu-west-1"
      "0f8fad5b" Built.sample_arguments_s3_uri ["Spot"; "OnDemand"; "Spot"]
    = Some p
    /\ e = PipelineNotebook.make_estimator "my-bucket" "role" "0f8fad5b"
             "OnDemand".
Proof.
  destruct (every_option_is_wired_to_its_own_steps "my-bucket" "role"
              "123456789012" "eu-west-1" "0f8fad5b"
              Built.sample_arguments_s3_uri
              ["Spot"; "OnDemand"; "Spot"] "OnDemand")
    as (p & e & ev & Hp & He & _).
  - cbn. auto.
  - exists p, e. split; [exact Hp | exact He].
Defined.

Lemma inference_predictor_is_bound_to_the_placeholder_witness :
  DeploymentInference.predictor_endpoint_name
    (DeploymentInference.predictor
       (DeploymentInference.predictor_cell
          (DeploymentNotebook.deploy_cell "my-bucket" "role"
             (fun _ _ => {| endpoint_name := "tensorflow-inference-1" |})
             DeploymentNotebook.ServerlessInference)))
  <> "tensorflow-inference-1".
Proof.
  apply (proj1 (proj2 (proj2
           (inference_predictor_is_bound_to_the_placeholder "my-bucket"
              "role" "123456789012" "eu-west-1" "0f8fad5b"
              Built.sample_arguments_s3_uri
              (fun _ _ => {| endpoint_name := "tensorflow-inference-1" |})
              DeploymentNotebook.ServerlessInference "Spot")))).
  cbn. discriminate.
Defined.

Lemma review_reads_what_the_condition_reads_witness :
  exists metrics,
    EvaluationReview.review Built.sample_report = Some metrics
    /\ json_lookup ["accuracy"; "value"] metrics
       = Some (JNumber 0.85%float).
Proof.
  apply (proj1 (proj2 (proj2
           (review_reads_what_the_condition_reads "my-bucket"
              Built.sample_report)))).
  reflexivity.
Defined.
